(** * liftOver: the command-line dispatcher and the lift engine's contract

    The first part embeds [src/hg/liftOver/liftOver.c]: the option table
    declared by [optionSpecs], [usage], [liftOver] and [main].  The program
    is a tree of calls into the kent library; the library itself is a
    parameter of the semantics ([library]), so every statement about the
    order of the calls holds for any implementation of it.

    The second part ([Module Engine]) is the interval engine behind the
    [liftOver*] drivers.  Its code lives in the library and is modelled from
    the written contract. *)

From Stdlib Require Import ZArith NArith QArith List String Bool Lia.
From stdpp Require Import base option list gmap strings.

Open Scope string_scope.
Open Scope Z_scope.

(** ** Command-line options *)

(** The four option kinds used by [optionSpecs]. *)
Inductive optionType := OPTION_BOOLEAN | OPTION_INT | OPTION_FLOAT | OPTION_STRING.

Definition optionSpecs : list (string * optionType) :=
  [ ("bedPlus", OPTION_INT); ("chainTable", OPTION_STRING);
    ("errorHelp", OPTION_BOOLEAN); ("fudgeThick", OPTION_BOOLEAN);
    ("genePred", OPTION_BOOLEAN); ("gff", OPTION_BOOLEAN);
    ("hasBin", OPTION_BOOLEAN); ("minBlocks", OPTION_FLOAT);
    ("minChainQ", OPTION_INT); ("minChainT", OPTION_INT);
    ("minMatch", OPTION_FLOAT); ("minSizeQ", OPTION_INT);
    ("minSizeT", OPTION_INT); ("multiple", OPTION_BOOLEAN);
    ("noSerial", OPTION_BOOLEAN); ("positions", OPTION_BOOLEAN);
    ("pslT", OPTION_BOOLEAN); ("sample", OPTION_BOOLEAN);
    ("ends", OPTION_INT); ("tab", OPTION_BOOLEAN);
    ("tabSep", OPTION_BOOLEAN); ("preserveInput", OPTION_BOOLEAN) ].

(** The option table as [optionInit] leaves it: one slot per entry of
    [optionSpecs], typed by the entry's kind.  A boolean option is either
    given or not; a valued option is absent or carries its parsed value.
    A [double] is an exact rational here: the dispatcher only stores and
    forwards the two thresholds. *)
Module Opt.
Record t := mk {
  bedPlus : option Z;
  chainTable : option string;
  errorHelp : bool;
  fudgeThick : bool;
  genePred : bool;
  gff : bool;
  hasBin : bool;
  minBlocks : option Q;
  minChainQ : option Z;
  minChainT : option Z;
  minMatch : option Q;
  minSizeQ : option Z;
  minSizeT : option Z;
  multiple : bool;
  noSerial : bool;
  positions : bool;
  pslT : bool;
  sample : bool;
  ends : option Z;
  tab : bool;
  tabSep : bool;
  preserveInput : bool
}.

(** No option on the command line. *)
Definition none : t :=
  mk None None false false false false false None None None None None None
     false false false false false None false false false.
End Opt.

Inductive optionValue :=
| OptOn
| OptInt (n : Z)
| OptFloat (x : Q)
| OptString (s : string).

Definition onIf (b : bool) : option optionValue := if b then Some OptOn else None.

(** The value stored under [name], if the option was given. *)
Definition optionLookup (o : Opt.t) (name : string) : option optionValue :=
  if String.eqb name "bedPlus" then option_map OptInt (Opt.bedPlus o)
  else if String.eqb name "chainTable" then option_map OptString (Opt.chainTable o)
  else if String.eqb name "errorHelp" then onIf (Opt.errorHelp o)
  else if String.eqb name "fudgeThick" then onIf (Opt.fudgeThick o)
  else if String.eqb name "genePred" then onIf (Opt.genePred o)
  else if String.eqb name "gff" then onIf (Opt.gff o)
  else if String.eqb name "hasBin" then onIf (Opt.hasBin o)
  else if String.eqb name "minBlocks" then option_map OptFloat (Opt.minBlocks o)
  else if String.eqb name "minChainQ" then option_map OptInt (Opt.minChainQ o)
  else if String.eqb name "minChainT" then option_map OptInt (Opt.minChainT o)
  else if String.eqb name "minMatch" then option_map OptFloat (Opt.minMatch o)
  else if String.eqb name "minSizeQ" then option_map OptInt (Opt.minSizeQ o)
  else if String.eqb name "minSizeT" then option_map OptInt (Opt.minSizeT o)
  else if String.eqb name "multiple" then onIf (Opt.multiple o)
  else if String.eqb name "noSerial" then onIf (Opt.noSerial o)
  else if String.eqb name "positions" then onIf (Opt.positions o)
  else if String.eqb name "pslT" then onIf (Opt.pslT o)
  else if String.eqb name "sample" then onIf (Opt.sample o)
  else if String.eqb name "ends" then option_map OptInt (Opt.ends o)
  else if String.eqb name "tab" then onIf (Opt.tab o)
  else if String.eqb name "tabSep" then onIf (Opt.tabSep o)
  else if String.eqb name "preserveInput" then onIf (Opt.preserveInput o)
  else None.

(** The kind of a stored value. *)
Definition kindOf (v : optionValue) : optionType :=
  match v with
  | OptOn => OPTION_BOOLEAN
  | OptInt _ => OPTION_INT
  | OptFloat _ => OPTION_FLOAT
  | OptString _ => OPTION_STRING
  end.

Definition optionExists (o : Opt.t) (name : string) : bool :=
  match optionLookup o name with Some _ => true | None => false end.

Definition optionInt (o : Opt.t) (name : string) (defaultVal : Z) : Z :=
  match optionLookup o name with Some (OptInt n) => n | _ => defaultVal end.

Definition optionDouble (o : Opt.t) (name : string) (defaultVal : Q) : Q :=
  match optionLookup o name with Some (OptFloat x) => x | _ => defaultVal end.

Definition optionVal (o : Opt.t) (name : string) (defaultVal : option string)
  : option string :=
  match optionLookup o name with Some (OptString s) => Some s | _ => defaultVal end.

(** Modelled from the spec: the two constants of [liftOver.h], which is not
    among the sources; the contract gives the defaults as 0.95 and 1.0. *)
Definition LIFTOVER_MINMATCH : Q := 0.95.
Definition LIFTOVER_MINBLOCKS : Q := 1.

(** ** Programs over the library *)

(** Arguments of a [printf]-style message. *)
Inductive fmtArg :=
| ArgInt (n : Z)
| ArgStr (s : string)
| ArgDouble (x : Q)
| ArgErrHelp.                       (* the text returned by liftOverErrHelp() *)

(** The format-specific drivers [liftOver] hands the work to.  The chain
    hash and the two output streams are the same in every call and are left
    out, as is the [errCt] out-parameter. *)
Inductive driverCall :=
| liftOverGff (oldFile : string) (minMatch minBlocks : Q) (preserveInput : bool)
| liftOverGenePred (oldFile : string) (minMatch minBlocks : Q) (fudgeThick : bool)
    (multiple preserveInput : bool)
| liftOverSample (oldFile : string) (minMatch minBlocks : Q) (fudgeThick : bool)
    (preserveInput : bool)
| liftOverPsl (oldFile : string) (minMatch minBlocks : Q) (fudgeThick : bool)
| liftOverBedPlusEnds (oldFile : string) (minMatch minBlocks : Q)
    (minSizeT minSizeQ minChainT minChainQ : Z) (fudgeThick : bool)
    (multiple noSerial : bool) (chainTable : option string) (bedPlus : Z)
    (hasBin tabSep : bool) (ends : Z) (preserveInput : bool)
| liftOverBedPlus (oldFile : string) (minMatch minBlocks : Q)
    (minSizeT minSizeQ minChainT minChainQ : Z) (fudgeThick : bool)
    (multiple noSerial : bool) (chainTable : option string) (bedPlus : Z)
    (hasBin tabSep : bool) (preserveInput : bool)
| liftOverPositions (oldFile : string) (minMatch minBlocks : Q)
    (minSizeT minSizeQ minChainT minChainQ : Z) (fudgeThick : bool)
    (multiple : bool) (chainTable : option string)
| liftOverBed (oldFile : string) (minMatch minBlocks : Q)
    (minSizeT minSizeQ minChainT minChainQ : Z) (fudgeThick : bool)
    (multiple noSerial : bool) (chainTable : option string) (preserveInput : bool).

(** Library calls that return nothing to the caller. *)
Inductive action :=
| mustOpen (fileName mode : string)
| verbose (verbosity : Z) (msg : string)
| warnStderr (msg : string)
| readLiftOverMap (mapFile : string)
| callDriver (d : driverCall)
| carefulClose (fileName : string).

(** A run of the program: it returns, aborts through [errAbort], performs a
    library call and goes on, or asks whether a file exists. *)
Inductive prog (A : Type) : Type :=
| Ret (a : A)
| errAbort (format : string) (args : list fmtArg)
| Do (a : action) (k : prog A)
| fileExists (fileName : string) (k : bool -> prog A).

Arguments Ret {A} a.
Arguments errAbort {A} format args.
Arguments Do {A} a k.
Arguments fileExists {A} fileName k.

Fixpoint bind {A B : Type} (p : prog A) (f : A -> prog B) : prog B :=
  match p with
  | Ret a => f a
  | errAbort fmt args => errAbort fmt args
  | Do a k => Do a (bind k f)
  | fileExists n k => fileExists n (fun b => bind (k b) f)
  end.

Declare Scope prog_scope.
Delimit Scope prog_scope with prog.
Notation "x <- p ;; q" := (bind p (fun x => q))
  (at level 100, p at next level, right associativity) : prog_scope.
Notation "p ;; q" := (bind p (fun _ => q))
  (at level 100, right associativity) : prog_scope.
Notation "'call' a" := (Do a (Ret tt)) (at level 10) : prog_scope.

(** [usage] aborts with the usage text (only its first lines are kept). *)
Definition usageText : string :=
  "liftOver - Move annotations from one assembly to another\nusage:\n   liftOver oldFile map.chain newFile unMapped\n".

Definition usage {A : Type} : prog A :=
  errAbort usageText [ArgDouble LIFTOVER_MINMATCH; ArgDouble LIFTOVER_MINBLOCKS].

(** [if (cond) errAbort(...)] as a statement. *)
Definition abortIf (cond : bool) (format : string) (args : list fmtArg) : prog unit :=
  if cond then errAbort format args else Ret tt.

(** ** [liftOver] *)

(** The file-scope variables [liftOver] reads without receiving them as
    parameters. *)
Module Glob.
Record t := mk {
  bedPlus : Z;
  ends : Z;
  fudgeThick : bool;
  hasBin : bool;
  tabSep : bool
}.
End Glob.

Definition isSet (chainTable : option string) : bool :=
  match chainTable with Some _ => true | None => false end.

Definition gffWarning : string :=
  "WARNING: -gff is not recommended.\nUse 'ldHgGene -out=<file.gp>' and then 'liftOver -genePred <file.gp>'\n".

Definition liftOver (o : Opt.t) (g : Glob.t) (oldFile mapFile : string)
    (minMatch minBlocks : Q) (minSizeT minSizeQ minChainT minChainQ : Z)
    (multiple noSerial : bool) (chainTable : option string)
    (newFile unmappedFile : string) (preserveInput : bool) : prog unit :=
  (call (mustOpen newFile "w") ;;
   call (mustOpen unmappedFile "w") ;;
   found <- fileExists oldFile Ret ;;
   abortIf (negb found) "Can't find file: %s\n" [ArgStr oldFile] ;;
   call (verbose 1 "Reading liftover chains\n") ;;
   call (readLiftOverMap mapFile) ;;
   call (verbose 1 "Mapping coordinates\n") ;;
   (if optionExists o "gff" then
      (call (warnStderr gffWarning) ;;
       abortIf multiple "ERROR: -multiple is not supported for -gff." [] ;;
       abortIf (isSet chainTable) "ERROR: -chainTable is not supported for -gff." [] ;;
       call (callDriver (liftOverGff oldFile minMatch minBlocks preserveInput)))
    else if optionExists o "genePred" then
      (abortIf (isSet chainTable) "ERROR: -chainTable is not supported for -genePred." [] ;;
       call (callDriver (liftOverGenePred oldFile minMatch minBlocks (Glob.fudgeThick g)
                           multiple preserveInput)))
    else if optionExists o "sample" then
      (abortIf multiple "ERROR: -multiple is not supported for -sample." [] ;;
       abortIf (isSet chainTable) "ERROR: -chainTable is not supported for -sample." [] ;;
       call (callDriver (liftOverSample oldFile minMatch minBlocks (Glob.fudgeThick g)
                           preserveInput)))
    else if optionExists o "pslT" then
      (call (verbose 1 "Consider using pslMap instead of liftOver for PSL.\n") ;;
       abortIf multiple "ERROR: -multiple is not supported for -pslT." [] ;;
       abortIf (isSet chainTable) "ERROR: -chainTable is not supported for -pslT." [] ;;
       call (callDriver (liftOverPsl oldFile minMatch minBlocks (Glob.fudgeThick g))))
    else if optionExists o "ends" then
      call (callDriver (liftOverBedPlusEnds oldFile minMatch minBlocks
                          minSizeT minSizeQ minChainT minChainQ (Glob.fudgeThick g)
                          multiple noSerial chainTable (Glob.bedPlus g) (Glob.hasBin g)
                          (Glob.tabSep g) (Glob.ends g) preserveInput))
    else if optionExists o "bedPlus" then
      call (callDriver (liftOverBedPlus oldFile minMatch minBlocks
                          minSizeT minSizeQ minChainT minChainQ (Glob.fudgeThick g)
                          multiple noSerial chainTable (Glob.bedPlus g) (Glob.hasBin g)
                          (Glob.tabSep g) preserveInput))
    else if optionExists o "positions" then
      call (callDriver (liftOverPositions oldFile minMatch minBlocks
                          minSizeT minSizeQ minChainT minChainQ (Glob.fudgeThick g)
                          multiple chainTable))
    else
      call (callDriver (liftOverBed oldFile minMatch minBlocks
                          minSizeT minSizeQ minChainT minChainQ (Glob.fudgeThick g)
                          multiple noSerial chainTable preserveInput))) ;;
   if negb (optionExists o "positions") then
     (call (carefulClose newFile) ;; call (carefulClose unmappedFile))
   else Ret tt)%prog.

(** ** [main] *)

Definition multipleOnlyMsg : string :=
  "minSizeT/Q, minChainT/Q, noSerial and chainTable can only be used with -multiple.".
Definition synonymMsg : string :=
  "minSizeT is currently a deprecated synonym for minChainT. Can't set both.".
Definition bedPlusRangeMsg : string :=
  "-bedPlus=%d is out of range -- BED has between 3 and 15 fields.".

(** [o] is the option table and [argv] the argument vector as [optionInit]
    leaves them: the options are gone from [argv], which still starts with
    the program name, and [argc] is its length. *)
Definition main (o : Opt.t) (argv : list string) : prog Z :=
  let argc := Z.of_nat (length argv) in
  let minSizeT := 0 in
  let minSizeQ := 0 in
  let minChainT := 0 in
  let minChainQ := 0 in
  let minMatch := LIFTOVER_MINMATCH in
  let minBlocks := LIFTOVER_MINBLOCKS in
  let preserveInput := false in
  let minMatch := optionDouble o "minMatch" minMatch in
  let minBlocks := optionDouble o "minBlocks" minBlocks in
  let fudgeThick := optionExists o "fudgeThick" in
  let multiple := optionExists o "multiple" in
  let noSerial := optionExists o "noSerial" in
  (abortIf (negb multiple && (optionExists o "minSizeT" || optionExists o "minSizeQ" ||
                              optionExists o "minChainT" || optionExists o "minChainQ" ||
                              optionExists o "chainTable" || optionExists o "noSerial"))
           multipleOnlyMsg [] ;;
   abortIf (optionExists o "minSizeT" && optionExists o "minChainT") synonymMsg [] ;;
   let minSizeT := optionInt o "minSizeT" minChainT in
   let minSizeQ := optionInt o "minSizeQ" minSizeQ in
   let minChainT := optionInt o "minChainT" minChainT in
   let minChainQ := optionInt o "minChainQ" minChainQ in
   bedPlus <- (if optionExists o "bedPlus" then
                 let bedPlus := optionInt o "bedPlus" 0 in
                 (abortIf ((bedPlus <? 3) || (bedPlus >? 15)) bedPlusRangeMsg [ArgInt bedPlus] ;;
                  Ret bedPlus)
               else Ret 0) ;;
   let ends := optionInt o "ends" 0 in
   let hasBin := optionExists o "hasBin" in
   let tabSep := optionExists o "tab" || optionExists o "tabSep" in
   (if (hasBin || tabSep) && (bedPlus =? 0) then usage else Ret tt) ;;
   let chainTable := optionVal o "chainTable" None in
   abortIf (optionExists o "errorHelp") "%s" [ArgErrHelp] ;;
   let preserveInput := if optionExists o "preserveInput" then true else preserveInput in
   (if negb (argc =? 5) then usage else Ret tt) ;;
   liftOver o (Glob.mk bedPlus ends fudgeThick hasBin tabSep)
            (nth 1 argv "") (nth 2 argv "") minMatch minBlocks
            minSizeT minSizeQ minChainT minChainQ multiple noSerial chainTable
            (nth 3 argv "") (nth 4 argv "") preserveInput ;;
   Ret 0)%prog.

(** ** Running a program against a library *)

(** What the kent library does is not part of this file: a [library] says,
    for a state of the outside world, how a call changes it ([None] when
    the call itself aborts, as [mustOpen] does on a file it cannot open)
    and which files exist. *)
Record library (W : Type) := {
  perform : action -> W -> option W;
  exists_ : string -> W -> bool
}.
Arguments perform {W} _ _ _.
Arguments exists_ {W} _ _ _.

(** One entry of the log of a run. *)
Inductive step :=
| Did (a : action)
| Asked (fileName : string) (answer : bool).

Inductive outcome (A : Type) :=
| Returned (a : A)
| Aborted (format : string) (args : list fmtArg)
| LibraryAborted (a : action).
Arguments Returned {A} a.
Arguments Aborted {A} format args.
Arguments LibraryAborted {A} a.

(** [run lib p w] executes [p] from world [w]; the log lists the calls that
    completed, in order. *)
Fixpoint run {W A : Type} (lib : library W) (p : prog A) (w : W)
  : list step * outcome A :=
  match p with
  | Ret a => ([], Returned a)
  | errAbort fmt args => ([], Aborted fmt args)
  | Do a k =>
      match perform lib a w with
      | None => ([], LibraryAborted a)
      | Some w' => let (log, r) := run lib k w' in (Did a :: log, r)
      end
  | fileExists n k =>
      let b := exists_ lib n w in
      let (log, r) := run lib (k b) w in (Asked n b :: log, r)
  end.

(** The program stops in [errAbort] before calling the library at all. *)
Definition abortsAtStartup {A : Type} (p : prog A) : bool :=
  match p with errAbort _ _ => true | _ => false end.

(** A small library to run examples in: the world is the set of existing
    files and the set of paths that cannot be opened for writing.  Opening
    a file for writing creates it. *)
Module SimpleFs.
Record world := mk { files : list string; locked : list string }.

Definition mem (n : string) (l : list string) : bool := existsb (String.eqb n) l.

Definition act (a : action) (w : world) : option world :=
  match a with
  | mustOpen n _ =>
      if mem n (locked w) then None
      else Some (mk (if mem n (files w) then files w else n :: files w) (locked w))
  | _ => Some w
  end.

Definition lib : library world :=
  {| perform := act; exists_ := fun n w => mem n (files w) |}.
End SimpleFs.

(** ** Vocabulary for statements about [main] *)

(** The condition of the first check of [main]: a multi-region filter
    option without [-multiple]. *)
Definition filtersWithoutMultiple (o : Opt.t) : bool :=
  negb (optionExists o "multiple")
  && (optionExists o "minSizeT" || optionExists o "minSizeQ" ||
      optionExists o "minChainT" || optionExists o "minChainQ" ||
      optionExists o "chainTable" || optionExists o "noSerial").

(** The condition of the second check: the synonym and its target both set. *)
Definition bothSynonyms (o : Opt.t) : bool :=
  optionExists o "minSizeT" && optionExists o "minChainT".

(** The call of [liftOver] that ends [main], with each argument as [main]
    computes it from the option table. *)
Definition liftOverCall (o : Opt.t) (argv : list string) : prog Z :=
  (liftOver o
     (Glob.mk (optionInt o "bedPlus" 0) (optionInt o "ends" 0)
        (optionExists o "fudgeThick") (optionExists o "hasBin")
        (optionExists o "tab" || optionExists o "tabSep"))
     (nth 1 argv "") (nth 2 argv "")
     (optionDouble o "minMatch" LIFTOVER_MINMATCH)
     (optionDouble o "minBlocks" LIFTOVER_MINBLOCKS)
     (optionInt o "minSizeT" 0) (optionInt o "minSizeQ" 0)
     (optionInt o "minChainT" 0) (optionInt o "minChainQ" 0)
     (optionExists o "multiple") (optionExists o "noSerial")
     (optionVal o "chainTable" None)
     (nth 3 argv "") (nth 4 argv "") (optionExists o "preserveInput") ;;
   Ret 0)%prog.

(** The library calls a program makes when every file it asks about
    exists and no call aborts. *)
Fixpoint callsIfFound {A : Type} (p : prog A) : list action :=
  match p with
  | Ret _ => []
  | errAbort _ _ => []
  | Do a k => a :: callsIfFound k
  | fileExists _ k => callsIfFound (k true)
  end.

(** The drivers among them, with the arguments they receive. *)
Definition driverCalls {A : Type} (p : prog A) : list driverCall :=
  flat_map (fun a => match a with callDriver d => [d] | _ => [] end) (callsIfFound p).

(** A threshold lies in [0,1]. *)
Definition inUnitRange (x : Q) : Prop := (0 <= x /\ x <= 1)%Q.

(** Option tables used in the examples. *)
Module Cmd.
(** [o] with [-minMatch] and [-minBlocks] replaced. *)
Definition withThresholds (minMatch minBlocks : option Q) (o : Opt.t) : Opt.t :=
  Opt.mk (Opt.bedPlus o) (Opt.chainTable o) (Opt.errorHelp o) (Opt.fudgeThick o)
    (Opt.genePred o) (Opt.gff o) (Opt.hasBin o) minBlocks (Opt.minChainQ o)
    (Opt.minChainT o) minMatch (Opt.minSizeQ o) (Opt.minSizeT o) (Opt.multiple o)
    (Opt.noSerial o) (Opt.positions o) (Opt.pslT o) (Opt.sample o) (Opt.ends o)
    (Opt.tab o) (Opt.tabSep o) (Opt.preserveInput o).

(** [liftOver old.bed map.chain new.bed unmapped.bed] *)
Definition argv : list string :=
  ["liftOver"; "old.bed"; "map.chain"; "new.bed"; "unmapped.bed"].

(** [-minMatch=2] *)
Definition minMatch2 : Opt.t := withThresholds (Some 2%Q) None Opt.none.

(** [-multiple -minSizeT=N] *)
Definition multipleMinSizeT (N : Z) : Opt.t :=
  Opt.mk None None false false false false false None None None None None (Some N)
    true false false false false None false false false.

(** [-multiple -minChainT=N] *)
Definition multipleMinChainT (N : Z) : Opt.t :=
  Opt.mk None None false false false false false None None (Some N) None None None
    true false false false false None false false false.

(** [-minSizeT=5] *)
Definition minSizeT5 : Opt.t :=
  Opt.mk None None false false false false false None None None None None (Some 5)
    false false false false false None false false false.

(** [-bedPlus=N] *)
Definition bedPlusOnly (N : Z) : Opt.t :=
  Opt.mk (Some N) None false false false false false None None None None None None
    false false false false false None false false false.

(** [-bedPlus=2 -noSerial] *)
Definition bedPlus2NoSerial : Opt.t :=
  Opt.mk (Some 2) None false false false false false None None None None None None
    false true false false false None false false false.

(** [-hasBin] *)
Definition hasBinOnly : Opt.t :=
  Opt.mk None None false false false false true None None None None None None
    false false false false false None false false false.

(** [-hasBin -noSerial] *)
Definition hasBinNoSerial : Opt.t :=
  Opt.mk None None false false false false true None None None None None None
    false true false false false None false false false.
End Cmd.

(** [p] never asks whether a file exists. *)
Fixpoint asksNothing {A : Type} (p : prog A) : Prop :=
  match p with
  | Ret _ => True
  | errAbort _ _ => True
  | Do _ k => asksNothing k
  | fileExists _ _ => False
  end.

(** ** The lift engine *)

(** The drivers called by [liftOver] sit on an interval engine whose code is
    in the library ([hg/lib]), not in this directory.  Every definition of
    this module is written from the engine's contract (data model, interval
    transform, resolver steps 1 to 4, ratio policy).  Coordinates are
    unsigned, 0-based and half-open, hence [N]; ratios are exact
    rationals. *)
Module Engine.
#[local] Open Scope N_scope.

(** Modelled from the spec: the strand of a chain side. *)
Inductive Strand := Forward | Reverse.

(** Modelled from the spec: ChainBlock, an ungapped aligned run. *)
Module ChainBlock.
Record t := mk { targetStart : N; queryStart : N; size : N }.
End ChainBlock.

(** Modelled from the spec: Chain, with its ordered blocks. *)
Module Chain.
Record t := mk {
  id : N;
  score : Z;
  targetName : string;
  targetSize : N;
  targetStart : N;
  targetEnd : N;
  targetStrand : Strand;
  queryName : string;
  querySize : N;
  queryStart : N;
  queryEnd : N;
  queryStrand : Strand;
  blocks : list ChainBlock.t
}.
End Chain.

(** Modelled from the spec: LiftInterval, the half-open range
    [start, end) on a named sequence. *)
Module LiftInterval.
Record t := mk { seqName : string; start : N; end_ : N }.
End LiftInterval.

(** Modelled from the spec: MappedRegion; [serial] is set only in
    multiple-region output. *)
Module MappedRegion.
Record t := mk {
  seqName : string;
  start : N;
  end_ : N;
  strand : Strand;
  sourceChainId : N;
  matchedBases : N;
  matchedBlocks : N;
  serial : option N
}.
End MappedRegion.

(** Modelled from the spec: LiftResult, the three variants a lift call
    returns. *)
Inductive LiftResult :=
| Mapped (r : MappedRegion.t)
| MappedMultiple (rs : list MappedRegion.t)
| Unmapped.

(** Modelled from the spec: the chain-table extension collaborator,
    [extendChains(targetSeq, start, end)]. *)
Definition Extension : Type := string -> N -> N -> list Chain.t.

(** Modelled from the spec: the configuration fields the resolver's steps
    1 to 4 read; [endsLength] belongs to the ends decomposition (step 5),
    which wraps the resolver and has its field in [LiftConfig] below. *)
Module Config.
Record t := mk {
  minMatch : Q;
  minBlocks : Q;
  multiple : bool;
  minChainT : N;
  minChainQ : N;
  minSizeQ : N;
  noSerial : bool;
  extendChains : option Extension
}.

(** Modelled from the spec: the defaults (0.95, 1.0, single region, no
    filter, no extension). *)
Definition default : t := mk 0.95%Q 1%Q false 0 0 0 false None.

(** Modelled from the spec: the same configuration with another
    minimum target chain span. *)
Definition withMinChainT (n : N) (c : t) : t :=
  mk (minMatch c) (minBlocks c) (multiple c) n (minChainQ c) (minSizeQ c)
     (noSerial c) (extendChains c).
End Config.

(** *** Chain index *)

(** Modelled from the spec: two half-open ranges overlap. *)
Definition rangesOverlap (start end_ tStart tEnd : N) : bool :=
  (start <? tEnd) && (tStart <? end_).

(** Modelled from the spec: block sizes are positive. *)
Definition sizesPositive (bs : list ChainBlock.t) : bool :=
  forallb (fun b => 0 <? ChainBlock.size b) bs.

(** Modelled from the spec: blocks increase in target and in query, each
    one ending before the next starts. *)
Fixpoint blocksIncreasing (bs : list ChainBlock.t) : bool :=
  match bs with
  | b1 :: ((b2 :: _) as rest) =>
      (ChainBlock.targetStart b1 + ChainBlock.size b1 <=? ChainBlock.targetStart b2)
      && (ChainBlock.queryStart b1 + ChainBlock.size b1 <=? ChainBlock.queryStart b2)
      && blocksIncreasing rest
  | _ => true
  end.

(** Modelled from the spec: the chains kept at load time. *)
Definition wellFormed (c : Chain.t) : bool :=
  sizesPositive (Chain.blocks c) && blocksIncreasing (Chain.blocks c).

(** Modelled from the spec: ChainMap, target sequence name to ChainIndex;
    the index is the list of the sequence's chains (its binning only
    speeds the query up). *)
Abbreviation ChainMap := (gmap string (list Chain.t)).

(** Modelled from the spec: one chain filed under its target name. *)
Definition addChain (m : ChainMap) (c : Chain.t) : ChainMap :=
  <[ Chain.targetName c :=
       match m !! Chain.targetName c with
       | Some index => (index ++ [c])%list
       | None => [c]
       end ]> m.

(** Modelled from the spec: [build], grouping chains by target name. *)
Definition build (chains : list Chain.t) : ChainMap :=
  fold_left addChain chains ∅.

(** Modelled from the spec: [loadChainMap]; a malformed chain is dropped
    and loading goes on. *)
Definition loadChainMap (chainRecords : list Chain.t) : ChainMap :=
  build (List.filter wellFormed chainRecords).

(** Modelled from the spec: a chain's target range overlaps the interval. *)
Definition chainOverlaps (start end_ : N) (c : Chain.t) : bool :=
  rangesOverlap start end_ (Chain.targetStart c) (Chain.targetEnd c).

(** Modelled from the spec: [query], every chain of the index overlapping
    [start, end). *)
Definition query (index : list Chain.t) (start end_ : N) : list Chain.t :=
  List.filter (chainOverlaps start end_) index.

(** Modelled from the spec: the candidates of an interval; an unknown
    sequence name gives none. *)
Definition candidates (m : ChainMap) (iv : LiftInterval.t) : list Chain.t :=
  match m !! LiftInterval.seqName iv with
  | Some index => query index (LiftInterval.start iv) (LiftInterval.end_ iv)
  | None => []
  end.

(** *** Interval transform *)

(** Modelled from the spec: an output fragment, the intersection of the
    interval with one block, in target and in query coordinates. *)
Module Fragment.
Record t := mk { targetStart : N; targetEnd : N; queryStart : N; queryEnd : N }.
Definition length (f : t) : N := targetEnd f - targetStart f.
End Fragment.

(** Modelled from the spec: query coordinates on a reverse-strand chain
    are reported as [querySize - coordinate]. *)
Definition strandCoords (c : Chain.t) (qStart qEnd : N) : N * N :=
  match Chain.queryStrand c with
  | Forward => (qStart, qEnd)
  | Reverse => (Chain.querySize c - qEnd, Chain.querySize c - qStart)
  end.

(** Modelled from the spec: the walk over the blocks in increasing order,
    as long as an overlap with the interval remains possible; each
    non-empty intersection gives one fragment. *)
Fixpoint walk (c : Chain.t) (start end_ : N) (bs : list ChainBlock.t)
  : list Fragment.t :=
  match bs with
  | [] => []
  | b :: rest =>
      if end_ <=? ChainBlock.targetStart b then []
      else
        let iStart := N.max start (ChainBlock.targetStart b) in
        let iEnd := N.min end_ (ChainBlock.targetStart b + ChainBlock.size b) in
        if iStart <? iEnd then
          let q := ChainBlock.queryStart b + (iStart - ChainBlock.targetStart b) in
          let (qs, qe) := strandCoords c q (q + (iEnd - iStart)) in
          Fragment.mk iStart iEnd qs qe :: walk c start end_ rest
        else walk c start end_ rest
  end.

(** Modelled from the spec: a block is touched when the interval has at
    least one base in it. *)
Definition touches (start end_ : N) (b : ChainBlock.t) : bool :=
  N.max start (ChainBlock.targetStart b)
  <? N.min end_ (ChainBlock.targetStart b + ChainBlock.size b).

(** Modelled from the spec: the sum of the fragment lengths. *)
Definition totalLength (fs : list Fragment.t) : N :=
  fold_right N.add 0 (map Fragment.length fs).

(** Modelled from the spec: what [transform] returns for one chain: the
    fragments and the coverage counts. *)
Module Transformed.
Record t := mk {
  chain : Chain.t;
  fragments : list Fragment.t;
  matchedBases : N;
  totalBases : N;
  matchedBlocks : N;
  totalBlocksTouched : N
}.
End Transformed.

(** Modelled from the spec: [transform]. *)
Definition transform (c : Chain.t) (iv : LiftInterval.t) : Transformed.t :=
  let s := LiftInterval.start iv in
  let e := LiftInterval.end_ iv in
  let fs := walk c s e (Chain.blocks c) in
  Transformed.mk c fs (totalLength fs) (e - s)
    (N.of_nat (length fs))
    (N.of_nat (length (List.filter (touches s e) (Chain.blocks c)))).

(** *** Ratio and threshold policy *)

(** Modelled from the spec: a ratio; with a zero denominator it counts as
    fully matched. *)
Definition ratio (num den : N) : Q :=
  match den with
  | 0 => 1%Q
  | Npos p => (Z.of_N num # p)%Q
  end.

(** Modelled from the spec: inclusive lower bound, and a zero denominator
    passes whatever the threshold. *)
Definition ratioPasses (num den : N) (threshold : Q) : bool :=
  match den with
  | 0 => true
  | Npos _ => Qle_bool threshold (ratio num den)
  end.

(** Modelled from the spec: matchRatio = matchedBases / intervalLength. *)
Definition matchRatio (t : Transformed.t) : Q :=
  ratio (Transformed.matchedBases t) (Transformed.totalBases t).

(** Modelled from the spec: blockRatio = matchedBlocks /
    totalBlocksTouched. *)
Definition blockRatio (t : Transformed.t) : Q :=
  ratio (Transformed.matchedBlocks t) (Transformed.totalBlocksTouched t).

(** Modelled from the spec: the minMatch check. *)
Definition matchPasses (cfg : Config.t) (t : Transformed.t) : bool :=
  ratioPasses (Transformed.matchedBases t) (Transformed.totalBases t)
              (Config.minMatch cfg).

(** Modelled from the spec: the minBlocks check. *)
Definition blocksPass (cfg : Config.t) (t : Transformed.t) : bool :=
  ratioPasses (Transformed.matchedBlocks t) (Transformed.totalBlocksTouched t)
              (Config.minBlocks cfg).

(** Modelled from the spec: step 2, a candidate is rejected when either
    ratio is below its threshold. *)
Definition accepted (cfg : Config.t) (t : Transformed.t) : bool :=
  matchPasses cfg t && blocksPass cfg t.

(** *** Resolver *)

(** Modelled from the spec: step 2 over a candidate set: transform every
    chain, keep the results that pass both thresholds. *)
Definition acceptedOf (cfg : Config.t) (iv : LiftInterval.t) (cands : list Chain.t)
  : list Transformed.t :=
  List.filter (accepted cfg) (map (fun c => transform c iv) cands).

(** Modelled from the spec: step 3's preference: more matched bases, then
    the higher chain score, then the lower chain id. *)
Definition better (a b : Transformed.t) : bool :=
  if Transformed.matchedBases b <? Transformed.matchedBases a then true
  else if Transformed.matchedBases a <? Transformed.matchedBases b then false
  else if (Chain.score (Transformed.chain b) <? Chain.score (Transformed.chain a))%Z
  then true
  else if (Chain.score (Transformed.chain a) <? Chain.score (Transformed.chain b))%Z
  then false
  else Chain.id (Transformed.chain a) <? Chain.id (Transformed.chain b).

(** Modelled from the spec: the preferred one of a non-empty list. *)
Definition pickBest (t : Transformed.t) (rest : list Transformed.t) : Transformed.t :=
  fold_left (fun best x => if better x best then x else best) rest t.

(** Modelled from the spec: the envelope (min start, max end) of the
    fragments in query coordinates.  Without any fragment the range is
    empty; the contract asks for a zero-length output there and leaves
    its position open. *)
Definition envelope (fs : list Fragment.t) : N * N :=
  match fs with
  | [] => (0, 0)
  | f :: rest =>
      (fold_left N.min (map Fragment.queryStart rest) (Fragment.queryStart f),
       fold_left N.max (map Fragment.queryEnd rest) (Fragment.queryEnd f))
  end.

(** Modelled from the spec: the single region of step 3. *)
Definition singleRegion (t : Transformed.t) : MappedRegion.t :=
  let c := Transformed.chain t in
  let (s, e) := envelope (Transformed.fragments t) in
  MappedRegion.mk (Chain.queryName c) s e (Chain.queryStrand c) (Chain.id c)
    (Transformed.matchedBases t) (Transformed.matchedBlocks t) None.

(** Modelled from the spec: step 4's chain-span filter. *)
Definition spanOk (cfg : Config.t) (t : Transformed.t) : bool :=
  let c := Transformed.chain t in
  (Config.minChainT cfg <=? Chain.targetEnd c - Chain.targetStart c)
  && (Config.minChainQ cfg <=? Chain.queryEnd c - Chain.queryStart c).

(** Modelled from the spec: in multiple mode each fragment is a region of
    its own; it is kept with its target start, the sort key. *)
Definition regionsOf (t : Transformed.t) : list (N * MappedRegion.t) :=
  let c := Transformed.chain t in
  map (fun f =>
         (Fragment.targetStart f,
          MappedRegion.mk (Chain.queryName c) (Fragment.queryStart f)
            (Fragment.queryEnd f) (Chain.queryStrand c) (Chain.id c)
            (Fragment.length f) 1 None))
      (Transformed.fragments t).

(** Modelled from the spec: step 4's minSizeQ filter on the size of the
    matched query region. *)
Definition sizeQOk (cfg : Config.t) (kr : N * MappedRegion.t) : bool :=
  Config.minSizeQ cfg <=? MappedRegion.end_ (snd kr) - MappedRegion.start (snd kr).

(** Modelled from the spec: the final order, by target start and then by
    chain id. *)
Definition regionLeb (a b : N * MappedRegion.t) : bool :=
  (fst a <? fst b)
  || ((fst a =? fst b)
      && (MappedRegion.sourceChainId (snd a) <=? MappedRegion.sourceChainId (snd b))).

(** Modelled from the spec: insertion into a sorted list of regions. *)
Fixpoint insertRegion (x : N * MappedRegion.t) (l : list (N * MappedRegion.t))
  : list (N * MappedRegion.t) :=
  match l with
  | [] => [x]
  | y :: rest => if regionLeb x y then x :: l else y :: insertRegion x rest
  end.

(** Modelled from the spec: the regions sorted by [regionLeb]. *)
Definition sortRegions (l : list (N * MappedRegion.t)) : list (N * MappedRegion.t) :=
  fold_right insertRegion [] l.

(** Modelled from the spec: ascending serial numbers from [n]. *)
Fixpoint numberFrom (n : N) (rs : list MappedRegion.t) : list MappedRegion.t :=
  match rs with
  | [] => []
  | r :: rest =>
      MappedRegion.mk (MappedRegion.seqName r) (MappedRegion.start r)
        (MappedRegion.end_ r) (MappedRegion.strand r) (MappedRegion.sourceChainId r)
        (MappedRegion.matchedBases r) (MappedRegion.matchedBlocks r) (Some n)
      :: numberFrom (n + 1) rest
  end.

(** Modelled from the spec: serial numbers start at 1 unless suppressed. *)
Definition assignSerials (noSerial : bool) (rs : list MappedRegion.t)
  : list MappedRegion.t :=
  if noSerial then rs else numberFrom 1 rs.

(** Modelled from the spec: the chains the extension adds to the
    candidate set, none when it is not configured. *)
Definition extension (cfg : Config.t) (iv : LiftInterval.t) : list Chain.t :=
  match Config.extendChains cfg with
  | Some ext => ext (LiftInterval.seqName iv) (LiftInterval.start iv) (LiftInterval.end_ iv)
  | None => []
  end.

(** Modelled from the spec: step 4, the assembly of multiple regions. *)
Definition assembleMultiple (cfg : Config.t) (acc : list Transformed.t) : LiftResult :=
  match List.filter (spanOk cfg) acc with
  | [] => Unmapped
  | kept =>
      MappedMultiple
        (assignSerials (Config.noSerial cfg)
           (map snd (sortRegions (List.filter (sizeQOk cfg) (flat_map regionsOf kept)))))
  end.

(** Modelled from the spec: [liftInterval], steps 1 to 4 of the resolver;
    [liftIntervalEnds] below adds step 5. *)
Definition liftInterval (m : ChainMap) (iv : LiftInterval.t) (cfg : Config.t)
  : LiftResult :=
  match candidates m iv with
  | [] => Unmapped
  | cands =>
      if Config.multiple cfg then
        assembleMultiple cfg (acceptedOf cfg iv (cands ++ extension cfg iv)%list)
      else
        match acceptedOf cfg iv cands with
        | [] => Unmapped
        | t :: rest => Mapped (singleRegion (pickBest t rest))
        end
  end.

(** *** The ends decomposition *)

(** Modelled from the spec: the whole configuration of a lift call: the
    fields of the resolver and [endsLength] (0 = disabled). *)
Module LiftConfig.
Record t := mk { resolver : Config.t; endsLength : N }.

(** Modelled from the spec: the same configuration with another minimum
    target chain span. *)
Definition withMinChainT (n : N) (c : t) : t :=
  mk (Config.withMinChainT n (resolver c)) (endsLength c).
End LiftConfig.





End Engine.

(** Chains and configurations used in the examples. *)
Module EngineEx.
Import Engine.
#[local] Open Scope N_scope.

(** The chain of the scenarios: one block (t=100, q=500, size=50) on
    chr1, forward strand. *)
Definition oneBlock (id : N) (score : Z) (tSize qSize : N) (qName : string)
  : Chain.t :=
  Chain.mk id score "chr1" tSize 100 150 Forward qName qSize 500 550 Forward
    [ChainBlock.mk 100 500 50].

Definition chainA : Chain.t := oneBlock 7 1000 1000 2000 "chr1".

(** A longer chain on chr1 with two blocks. *)
Definition chainB : Chain.t :=
  Chain.mk 8 1000 "chr1" 1000 100 300 Forward "chr1" 2000 500 700 Forward
    [ChainBlock.mk 100 500 50; ChainBlock.mk 200 600 100].




End EngineEx.

(** ** Vocabulary for statements about [liftOver] and runs *)

(** The input formats [liftOver] tells apart, one per driver. *)
Inductive format := Gff | GenePred | Sample | PslT | Ends | BedPlus | Positions | Bed.

(** The format a driver handles. *)
Definition formatOf (d : driverCall) : format :=
  match d with
  | liftOverGff _ _ _ _ => Gff
  | liftOverGenePred _ _ _ _ _ _ => GenePred
  | liftOverSample _ _ _ _ _ => Sample
  | liftOverPsl _ _ _ _ => PslT
  | liftOverBedPlusEnds _ _ _ _ _ _ _ _ _ _ _ _ _ _ _ _ => Ends
  | liftOverBedPlus _ _ _ _ _ _ _ _ _ _ _ _ _ _ _ => BedPlus
  | liftOverPositions _ _ _ _ _ _ _ _ _ _ => Positions
  | liftOverBed _ _ _ _ _ _ _ _ _ _ _ _ => Bed
  end.

(** The format the options ask for when several format options are given:
    the first one present in the order gff, genePred, sample, pslT, ends,
    bedPlus, positions; bed when none is. *)
Definition selectedFormat (o : Opt.t) : format :=
  if optionExists o "gff" then Gff
  else if optionExists o "genePred" then GenePred
  else if optionExists o "sample" then Sample
  else if optionExists o "pslT" then PslT
  else if optionExists o "ends" then Ends
  else if optionExists o "bedPlus" then BedPlus
  else if optionExists o "positions" then Positions
  else Bed.

(** How a program ends when every file it asks about exists and no library
    call aborts. *)
Fixpoint leafIfFound {A : Type} (p : prog A) : outcome A :=
  match p with
  | Ret a => Returned a
  | errAbort fmt args => Aborted fmt args
  | Do _ k => leafIfFound k
  | fileExists _ k => leafIfFound (k true)
  end.

(** The library calls recorded in a log. *)
Definition didsOf (log : list step) : list action :=
  flat_map (fun s => match s with Did a => [a] | Asked _ _ => [] end) log.

(** The drivers among a list of calls. *)
Definition driversIn (calls : list action) : list driverCall :=
  flat_map (fun a => match a with callDriver d => [d] | _ => [] end) calls.

(** [o] with [-tab] and [-tabSep] replaced. *)
Definition withTab (tab tabSep : bool) (o : Opt.t) : Opt.t :=
  Opt.mk (Opt.bedPlus o) (Opt.chainTable o) (Opt.errorHelp o) (Opt.fudgeThick o)
    (Opt.genePred o) (Opt.gff o) (Opt.hasBin o) (Opt.minBlocks o) (Opt.minChainQ o)
    (Opt.minChainT o) (Opt.minMatch o) (Opt.minSizeQ o) (Opt.minSizeT o)
    (Opt.multiple o) (Opt.noSerial o) (Opt.positions o) (Opt.pslT o) (Opt.sample o)
    (Opt.ends o) tab tabSep (Opt.preserveInput o).

(** The arguments every driver receives: the input file and the two
    thresholds. *)
Definition driverOldFile (d : driverCall) : string :=
  match d with
  | liftOverGff f _ _ _ => f
  | liftOverGenePred f _ _ _ _ _ => f
  | liftOverSample f _ _ _ _ => f
  | liftOverPsl f _ _ _ => f
  | liftOverBedPlusEnds f _ _ _ _ _ _ _ _ _ _ _ _ _ _ _ => f
  | liftOverBedPlus f _ _ _ _ _ _ _ _ _ _ _ _ _ _ => f
  | liftOverPositions f _ _ _ _ _ _ _ _ _ => f
  | liftOverBed f _ _ _ _ _ _ _ _ _ _ _ => f
  end.

Definition driverMinMatch (d : driverCall) : Q :=
  match d with
  | liftOverGff _ m _ _ => m
  | liftOverGenePred _ m _ _ _ _ => m
  | liftOverSample _ m _ _ _ => m
  | liftOverPsl _ m _ _ => m
  | liftOverBedPlusEnds _ m _ _ _ _ _ _ _ _ _ _ _ _ _ _ => m
  | liftOverBedPlus _ m _ _ _ _ _ _ _ _ _ _ _ _ _ => m
  | liftOverPositions _ m _ _ _ _ _ _ _ _ => m
  | liftOverBed _ m _ _ _ _ _ _ _ _ _ _ => m
  end.

Definition driverMinBlocks (d : driverCall) : Q :=
  match d with
  | liftOverGff _ _ b _ => b
  | liftOverGenePred _ _ b _ _ _ => b
  | liftOverSample _ _ b _ _ => b
  | liftOverPsl _ _ b _ => b
  | liftOverBedPlusEnds _ _ b _ _ _ _ _ _ _ _ _ _ _ _ _ => b
  | liftOverBedPlus _ _ b _ _ _ _ _ _ _ _ _ _ _ _ => b
  | liftOverPositions _ _ b _ _ _ _ _ _ _ => b
  | liftOverBed _ _ b _ _ _ _ _ _ _ _ _ => b
  end.

(** [o] with the format flags, -fudgeThick and -preserveInput replaced. *)
Definition withFormats (gff genePred sample pslT positions fudgeThick preserveInput : bool)
    (o : Opt.t) : Opt.t :=
  Opt.mk (Opt.bedPlus o) (Opt.chainTable o) (Opt.errorHelp o) fudgeThick
    genePred gff (Opt.hasBin o) (Opt.minBlocks o) (Opt.minChainQ o)
    (Opt.minChainT o) (Opt.minMatch o) (Opt.minSizeQ o) (Opt.minSizeT o)
    (Opt.multiple o) (Opt.noSerial o) positions pslT sample
    (Opt.ends o) (Opt.tab o) (Opt.tabSep o) preserveInput.

(** Option tables used in the examples of this part. *)
Module Cmd2.
(** [-multiple -minSizeT=5 -minChainT=7] *)
Definition bothSizes : Opt.t :=
  Opt.mk None None false false false false false None None (Some 7) None None (Some 5)
    true false false false false None false false false.

(** [-errorHelp] *)
Definition errorHelpOnly : Opt.t :=
  Opt.mk None None true false false false false None None None None None None
    false false false false false None false false false.

(** [-gff -positions] *)
Definition gffPositions : Opt.t :=
  Opt.mk None None false false false true false None None None None None None
    false false true false false None false false false.

(** [-gff -multiple] *)
Definition gffMultiple : Opt.t :=
  Opt.mk None None false false false true false None None None None None None
    true false false false false None false false false.

(** [-genePred -multiple -minChainT=100] *)
Definition genePredMultiple : Opt.t :=
  Opt.mk None None false false true false false None None (Some 100) None None None
    true false false false false None false false false.

(** [-pslT -preserveInput] *)
Definition pslPreserve : Opt.t :=
  Opt.mk None None false false false false false None None None None None None
    false false false true false None false false true.

(** [-bedPlus=6 -hasBin -tab] *)
Definition bedPlus6 : Opt.t :=
  Opt.mk (Some 6) None false false false false true None None None None None None
    false false false false false None true false false.

(** [liftOver old.bed map.chain new.bed]: one argument short. *)
Definition shortArgv : list string := ["liftOver"; "old.bed"; "map.chain"; "new.bed"].

(** A world in which old.bed and map.chain exist. *)
Definition ready : SimpleFs.world := SimpleFs.mk ["old.bed"; "map.chain"] [].
End Cmd2.

(** ** Proof steps shared by the statements about the dispatch *)

(** Case analysis on every option and flag the dispatch looks at. *)
Ltac dispatch_cases o multiple chainTable :=
  unfold driverCalls, selectedFormat, liftOver, abortIf;
  destruct (optionExists o "gff"), (optionExists o "genePred"),
    (optionExists o "sample"), (optionExists o "pslT"), (optionExists o "ends"),
    (optionExists o "bedPlus"), (optionExists o "positions"),
    multiple, chainTable;
  cbn.

(** Closes a goal from a membership hypothesis in an explicit list that
    cannot hold. *)
Ltac solve_in :=
  repeat match goal with
         | H : In _ _ |- _ => cbn in H
         | H : _ \/ _ |- _ => destruct H
         | H : False |- _ => destruct H
         | H : _ = _ |- _ => discriminate H
         end.

(** A log too short to hold a driver call. *)
Ltac no_driver_in_short_log :=
  cbn; intros H;
  repeat match type of H with
         | _ \/ _ => destruct H as [H|H]
         | False => destruct H
         | _ = _ => discriminate H
         end.

(** * Properties of the dispatcher *)

(** The table holds nothing but options declared in [optionSpecs], each
    with a value of the declared kind. *)
Lemma optionLookup_declared (o : Opt.t) (name : string) (v : optionValue) :
  optionLookup o name = Some v -> In (name, kindOf v) optionSpecs.
Proof.
  intros H. unfold optionLookup in H.
  repeat match type of H with
         | (if String.eqb name ?s then _ else _) = _ =>
             destruct (String.eqb_spec name s) as [->|_]
         end;
    try discriminate H;
    repeat match type of H with
           | context [onIf ?b] => destruct b; cbn in H
           | context [option_map _ ?x] => destruct x; cbn in H
           end;
    try discriminate H; injection H as <-; cbn; auto 30.
Qed.

Lemma optionInt_absent (o : Opt.t) (name : string) (d : Z) :
  optionExists o name = false -> optionInt o name d = d.
Proof.
  unfold optionExists, optionInt. now destruct (optionLookup o name).
Qed.

Lemma main_cases (o : Opt.t) (argv : list string) :
  main o argv =
  if filtersWithoutMultiple o then errAbort multipleOnlyMsg []
  else if bothSynonyms o then errAbort synonymMsg []
  else if optionExists o "bedPlus"
          && ((optionInt o "bedPlus" 0 <? 3) || (optionInt o "bedPlus" 0 >? 15))
       then errAbort bedPlusRangeMsg [ArgInt (optionInt o "bedPlus" 0)]
  else if (optionExists o "hasBin" || (optionExists o "tab" || optionExists o "tabSep"))
          && (optionInt o "bedPlus" 0 =? 0)
       then usage
  else if optionExists o "errorHelp" then errAbort "%s" [ArgErrHelp]
  else if negb (Z.of_nat (length argv) =? 5) then usage
  else liftOverCall o argv.
Proof.
  unfold main, filtersWithoutMultiple, bothSynonyms, liftOverCall, abortIf.
  destruct (negb (optionExists o "multiple") && _); [reflexivity|].
  destruct (optionExists o "minSizeT" && optionExists o "minChainT"); [reflexivity|].
  cbn [bind].
  destruct (optionExists o "bedPlus") eqn:Hbp; cbn [andb bind].
  - destruct ((optionInt o "bedPlus" 0 <? 3) || (optionInt o "bedPlus" 0 >? 15));
      [reflexivity|]. cbn [bind].
    destruct ((optionExists o "hasBin" || _) && _); [reflexivity|]. cbn [bind].
    destruct (optionExists o "errorHelp"); [reflexivity|]. cbn [bind].
    destruct (negb _); [reflexivity|]. cbn [bind].
    now destruct (optionExists o "preserveInput").
  - rewrite (optionInt_absent o "bedPlus" 0 Hbp).
    destruct ((optionExists o "hasBin" || _) && _); [reflexivity|]. cbn [bind].
    destruct (optionExists o "errorHelp"); [reflexivity|]. cbn [bind].
    destruct (negb _); [reflexivity|]. cbn [bind].
    now destruct (optionExists o "preserveInput").
Qed.

Lemma liftOverCall_starts (o : Opt.t) (argv : list string) :
  abortsAtStartup (liftOverCall o argv) = false.
Proof. reflexivity. Qed.

Lemma abortsAtStartup_main (o : Opt.t) (argv : list string) :
  abortsAtStartup (main o argv) =
  filtersWithoutMultiple o
  || bothSynonyms o
  || (optionExists o "bedPlus"
      && ((optionInt o "bedPlus" 0 <? 3) || (optionInt o "bedPlus" 0 >? 15)))
  || ((optionExists o "hasBin" || (optionExists o "tab" || optionExists o "tabSep"))
      && (optionInt o "bedPlus" 0 =? 0))
  || optionExists o "errorHelp"
  || negb (Z.of_nat (length argv) =? 5).
Proof.
  rewrite main_cases.
  repeat match goal with
         | |- context [if ?c then _ else _] => destruct c; cbn [orb]; try reflexivity
         end.
Qed.

Lemma run_abort {W A : Type} (lib : library W) (w : W) (fmt : string) (args : list fmtArg) :
  run lib (@errAbort A fmt args) w = ([], Aborted fmt args).
Proof. reflexivity. Qed.

(** C3: an invocation that gives one of minSizeT, minSizeQ, minChainT,
    minChainQ, chainTable or noSerial without -multiple makes [main] abort
    with the "can only be used with -multiple" message; the program is that
    abort alone, so under any library its run makes no call at all: no
    file is opened or read. *)
Theorem C3_filters_require_multiple (o : Opt.t) (argv : list string) :
  optionExists o "multiple" = false ->
  (optionExists o "minSizeT" || optionExists o "minSizeQ" ||
   optionExists o "minChainT" || optionExists o "minChainQ" ||
   optionExists o "chainTable" || optionExists o "noSerial") = true ->
  main o argv = errAbort multipleOnlyMsg []
  /\ forall (W : Type) (lib : library W) (w : W),
       run lib (main o argv) w = ([], Aborted multipleOnlyMsg []).
Proof.
  intros Hmult Hany.
  assert (Hm : main o argv = errAbort multipleOnlyMsg []).
  { rewrite main_cases. unfold filtersWithoutMultiple. now rewrite Hmult, Hany. }
  split; [exact Hm|]. intros W lib w. now rewrite Hm.
Qed.

Lemma C3_witness :
  optionExists Cmd.minSizeT5 "multiple" = false
  /\ main Cmd.minSizeT5 Cmd.argv = errAbort multipleOnlyMsg [].
Proof.
  split; [reflexivity|].
  apply (C3_filters_require_multiple Cmd.minSizeT5 Cmd.argv); reflexivity.
Defined.

Lemma withThresholds_checks (o : Opt.t) (mm mb : option Q) (argv : list string) :
  abortsAtStartup (main (Cmd.withThresholds mm mb o) argv) = abortsAtStartup (main o argv).
Proof. rewrite !abortsAtStartup_main. reflexivity. Qed.

Lemma main_after_startup (o : Opt.t) (argv : list string) :
  abortsAtStartup (main o argv) = false -> main o argv = liftOverCall o argv.
Proof.
  rewrite main_cases.
  repeat match goal with
         | |- context [if ?c then _ else _] => destruct c; try discriminate
         end.
  reflexivity.
Qed.

(** C1 fails on the code: with -minMatch=2, a ratio outside [0,1], no
    startup check fires; [main] goes on into [liftOver] and the bed driver
    receives the value 2, and the run ends with exit status 0. *)
Lemma C1_counterexample :
  ~ inUnitRange (optionDouble Cmd.minMatch2 "minMatch" LIFTOVER_MINMATCH)
  /\ abortsAtStartup (main Cmd.minMatch2 Cmd.argv) = false
  /\ driverCalls (main Cmd.minMatch2 Cmd.argv)
     = [liftOverBed "old.bed" 2 1 0 0 0 0 false false false None false]
  /\ snd (run SimpleFs.lib (main Cmd.minMatch2 Cmd.argv)
            (SimpleFs.mk ["old.bed"; "map.chain"] []))
     = Returned 0.
Proof.
  repeat split; try reflexivity.
  intros [_ H]. vm_compute in H. apply H. reflexivity.
Qed.

(** C1 as amended: [main] does not validate minMatch or minBlocks.  Whether
    it aborts at startup is the same whatever the two values are, and when
    it does not abort it calls [liftOver] with exactly the values given on
    the command line. *)
Theorem C1_thresholds_not_validated (o : Opt.t) (argv : list string) (x y : Q) :
  let o' := Cmd.withThresholds (Some x) (Some y) o in
  optionDouble o' "minMatch" LIFTOVER_MINMATCH = x
  /\ optionDouble o' "minBlocks" LIFTOVER_MINBLOCKS = y
  /\ abortsAtStartup (main o' argv) = abortsAtStartup (main o argv)
  /\ (abortsAtStartup (main o' argv) = false -> main o' argv = liftOverCall o' argv).
Proof.
  intros o'. repeat split.
  - apply withThresholds_checks.
  - apply main_after_startup.
Qed.

Lemma C1_witness :
  abortsAtStartup (main (Cmd.withThresholds (Some 2%Q) (Some (-1)%Q) Opt.none) Cmd.argv) = false
  /\ main (Cmd.withThresholds (Some 2%Q) (Some (-1)%Q) Opt.none) Cmd.argv
     = liftOverCall (Cmd.withThresholds (Some 2%Q) (Some (-1)%Q) Opt.none) Cmd.argv.
Proof.
  split; [reflexivity|].
  apply (C1_thresholds_not_validated Opt.none Cmd.argv 2%Q (-1)%Q). reflexivity.
Defined.

(** C2, evaluated on the code: after [-multiple -minSizeT=N] the bed driver
    receives minSizeT = N and minChainT = 0, after [-multiple -minChainT=N]
    it receives minSizeT = 0 and minChainT = N.  The synonym is handed on
    as a value of its own instead of being stored in minChainT. *)
Theorem C2_alias_passed_unresolved (N : Z) :
  driverCalls (main (Cmd.multipleMinSizeT N) Cmd.argv)
  = [liftOverBed "old.bed" LIFTOVER_MINMATCH LIFTOVER_MINBLOCKS N 0 0 0
       false true false None false]
  /\ driverCalls (main (Cmd.multipleMinChainT N) Cmd.argv)
     = [liftOverBed "old.bed" LIFTOVER_MINMATCH LIFTOVER_MINBLOCKS 0 0 N 0
          false true false None false].
Proof. split; reflexivity. Qed.

(** C8 fails on the code: [-bedPlus=2 -noSerial] has N = 2 outside 3..15,
    yet the abort is the one of the first check (filters without
    -multiple), not the out-of-range one. *)
Lemma C8_counterexample :
  Opt.bedPlus Cmd.bedPlus2NoSerial = Some 2
  /\ ~ (3 <= 2 <= 15)
  /\ main Cmd.bedPlus2NoSerial Cmd.argv = errAbort multipleOnlyMsg []
  /\ main Cmd.bedPlus2NoSerial Cmd.argv <> errAbort bedPlusRangeMsg [ArgInt 2].
Proof.
  repeat split; try reflexivity; [lia | discriminate].
Qed.

Lemma optionInt_bedPlus (o : Opt.t) (N : Z) :
  Opt.bedPlus o = Some N ->
  optionExists o "bedPlus" = true /\ optionInt o "bedPlus" 0 = N.
Proof.
  intros H. unfold optionExists, optionInt, optionLookup. cbn. now rewrite H.
Qed.

(** C8 as amended: for an invocation with -bedPlus=N, an N outside 3..15
    always makes [main] abort before any library call; when neither earlier
    check fires (filters without -multiple, minSizeT together with
    minChainT) the abort is the out-of-range one, and that abort happens
    exactly when N is outside 3..15. *)
Theorem C8_bedPlus_range (o : Opt.t) (argv : list string) (N : Z) :
  Opt.bedPlus o = Some N ->
  (~ (3 <= N <= 15) -> abortsAtStartup (main o argv) = true)
  /\ (filtersWithoutMultiple o = false -> bothSynonyms o = false ->
      (main o argv = errAbort bedPlusRangeMsg [ArgInt N] <-> ~ (3 <= N <= 15))).
Proof.
  intros HN. destruct (optionInt_bedPlus o N HN) as [He Hi]. split.
  - intros Hout. rewrite abortsAtStartup_main, He, Hi.
    replace ((N <? 3) || (N >? 15)) with true by lia.
    cbn [andb]. now rewrite !orb_true_r.
  - intros Hf Hs. rewrite main_cases, Hf, Hs, He, Hi. cbn [andb].
    destruct ((N <? 3) || (N >? 15)) eqn:Hr.
    + split; [lia | reflexivity].
    + split; [|lia]. intros Habs. exfalso.
      repeat match type of Habs with
             | (if ?c then _ else _) = _ => destruct c
             end; discriminate Habs.
Qed.

Lemma C8_witness :
  Opt.bedPlus (Cmd.bedPlusOnly 2) = Some 2
  /\ ~ (3 <= 2 <= 15)
  /\ main (Cmd.bedPlusOnly 2) Cmd.argv = errAbort bedPlusRangeMsg [ArgInt 2].
Proof.
  split; [reflexivity|]. split; [lia|].
  apply (C8_bedPlus_range (Cmd.bedPlusOnly 2) Cmd.argv 2); [reflexivity..|lia].
Defined.

(** C9 fails on the code: [-hasBin -noSerial] gives -hasBin without
    -bedPlus, yet the exit is the abort of the first check, not the usage
    message. *)
Lemma C9_counterexample :
  optionExists Cmd.hasBinNoSerial "hasBin" = true
  /\ optionExists Cmd.hasBinNoSerial "bedPlus" = false
  /\ main Cmd.hasBinNoSerial Cmd.argv = errAbort multipleOnlyMsg []
  /\ main Cmd.hasBinNoSerial Cmd.argv <> usage.
Proof.
  repeat split; try reflexivity. discriminate.
Qed.

(** C9 as amended: an invocation with -hasBin, -tab or -tabSep and without
    -bedPlus always aborts before any library call; when neither earlier
    check fires, the abort is the usage message. *)
Theorem C9_hasBin_tab_require_bedPlus (o : Opt.t) (argv : list string) :
  (optionExists o "hasBin" || optionExists o "tab" || optionExists o "tabSep") = true ->
  optionExists o "bedPlus" = false ->
  abortsAtStartup (main o argv) = true
  /\ (filtersWithoutMultiple o = false -> bothSynonyms o = false ->
      main o argv = usage).
Proof.
  intros Hany Hbp. rewrite <- orb_assoc in Hany.
  pose proof (optionInt_absent o "bedPlus" 0 Hbp) as Hi. split.
  - rewrite abortsAtStartup_main, Hany, Hi, Hbp. cbn. now rewrite !orb_true_r.
  - intros Hf Hs. now rewrite main_cases, Hf, Hs, Hbp, Hany, Hi.
Qed.

Lemma C9_witness :
  optionExists Cmd.hasBinOnly "hasBin" = true
  /\ optionExists Cmd.hasBinOnly "bedPlus" = false
  /\ abortsAtStartup (main Cmd.hasBinOnly Cmd.argv) = true
  /\ main Cmd.hasBinOnly Cmd.argv = usage.
Proof.
  split; [reflexivity|]. split; [reflexivity|].
  destruct (C9_hasBin_tab_require_bedPlus Cmd.hasBinOnly Cmd.argv) as [H1 H2];
    [reflexivity..|].
  split; [exact H1 | apply H2; reflexivity].
Defined.

Lemma asksNothing_bind {A B : Type} (p : prog A) (f : A -> prog B) :
  asksNothing p -> (forall a, asksNothing (f a)) -> asksNothing (bind p f).
Proof.
  induction p as [a|fmt args|a k IH|n k IH]; cbn; intros Hp Hf; auto.
Qed.

Lemma asksNothing_abortIf (c : bool) (fmt : string) (args : list fmtArg) :
  asksNothing (abortIf c fmt args).
Proof. now destruct c. Qed.

Lemma run_asksNothing {W A : Type} (lib : library W) (p : prog A) (w : W)
    (n : string) (b : bool) :
  asksNothing p -> ~ In (Asked n b) (fst (run lib p w)).
Proof.
  revert w. induction p as [a|fmt args|a k IH|m k IH]; cbn; intros w Hp; auto.
  destruct (perform lib a w) as [w'|]; cbn; auto.
  specialize (IH w' Hp). destruct (run lib k w') as [log r]. cbn in *.
  intros [H | H]; [discriminate H | auto].
Qed.

Lemma liftOver_shape (o : Opt.t) (g : Glob.t) (oldFile mapFile : string)
    (minMatch minBlocks : Q) (minSizeT minSizeQ minChainT minChainQ : Z)
    (multiple noSerial : bool) (chainTable : option string)
    (newFile unmappedFile : string) (preserveInput : bool) :
  exists k : bool -> prog unit,
    liftOver o g oldFile mapFile minMatch minBlocks minSizeT minSizeQ minChainT
      minChainQ multiple noSerial chainTable newFile unmappedFile preserveInput
    = Do (mustOpen newFile "w") (Do (mustOpen unmappedFile "w") (fileExists oldFile k))
    /\ k false = errAbort "Can't find file: %s\n" [ArgStr oldFile]
    /\ asksNothing (k true).
Proof.
  eexists. split; [reflexivity|]. split; [reflexivity|].
  cbn [negb abortIf bind asksNothing].
  apply asksNothing_bind.
  - repeat match goal with
           | |- asksNothing (if ?c then _ else _) => destruct c
           | |- asksNothing (bind _ _) => apply asksNothing_bind; [|intros _]
           | |- asksNothing (abortIf _ _ _) => apply asksNothing_abortIf
           | |- asksNothing (Do _ _) => cbn [asksNothing]
           | |- asksNothing (Ret _) => exact I
           | |- True => exact I
           end.
  - intros _. now destruct (negb (optionExists o "positions")).
Qed.

(** C10 fails on the code when oldFile names the same path as newFile:
    x.bed does not exist when the program starts, the open of newFile for
    writing creates it, the existence test of line 117 then finds it, and
    the run reads the chain map, calls the bed driver and returns. *)
Lemma C10_counterexample :
  exists_ SimpleFs.lib "x.bed" (SimpleFs.mk ["map.chain"] []) = false
  /\ run SimpleFs.lib
       (liftOver Opt.none (Glob.mk 0 0 false false false) "x.bed" "map.chain"
          LIFTOVER_MINMATCH LIFTOVER_MINBLOCKS 0 0 0 0 false false None
          "x.bed" "unmapped.bed" false)
       (SimpleFs.mk ["map.chain"] [])
     = ([Did (mustOpen "x.bed" "w"); Did (mustOpen "unmapped.bed" "w");
         Asked "x.bed" true; Did (verbose 1 "Reading liftover chains\n");
         Did (readLiftOverMap "map.chain"); Did (verbose 1 "Mapping coordinates\n");
         Did (callDriver (liftOverBed "x.bed" LIFTOVER_MINMATCH LIFTOVER_MINBLOCKS
                            0 0 0 0 false false false None false));
         Did (carefulClose "x.bed"); Did (carefulClose "unmapped.bed")],
        Returned tt).
Proof. split; reflexivity. Qed.

(** C10 as amended: [liftOver] opens newFile and unmappedFile for writing,
    then tests whether oldFile exists, and on the answer no it aborts with
    "Can't find file" at once.  So in every run, under any library, in
    which that test, made after the two opens, finds oldFile missing, the
    log is exactly the two opens and the test (the chain map is not read)
    and the outcome is that abort. *)
Theorem C10_missing_input_aborts_after_opens
    (o : Opt.t) (g : Glob.t) (oldFile mapFile : string) (minMatch minBlocks : Q)
    (minSizeT minSizeQ minChainT minChainQ : Z) (multiple noSerial : bool)
    (chainTable : option string) (newFile unmappedFile : string)
    (preserveInput : bool) :
  let p := liftOver o g oldFile mapFile minMatch minBlocks minSizeT minSizeQ
             minChainT minChainQ multiple noSerial chainTable newFile unmappedFile
             preserveInput in
  (exists k : bool -> prog unit,
     p = Do (mustOpen newFile "w") (Do (mustOpen unmappedFile "w") (fileExists oldFile k))
     /\ k false = errAbort "Can't find file: %s\n" [ArgStr oldFile])
  /\ forall (W : Type) (lib : library W) (w : W),
       In (Asked oldFile false) (fst (run lib p w)) ->
       run lib p w
       = ([Did (mustOpen newFile "w"); Did (mustOpen unmappedFile "w");
           Asked oldFile false],
          Aborted "Can't find file: %s\n" [ArgStr oldFile]).
Proof.
  intros p.
  destruct (liftOver_shape o g oldFile mapFile minMatch minBlocks minSizeT minSizeQ
              minChainT minChainQ multiple noSerial chainTable newFile unmappedFile
              preserveInput) as (k & Hp & Hmissing & Hfound).
  fold p in Hp. split; [now exists k|].
  intros W lib w. rewrite Hp. cbn [run].
  destruct (perform lib (mustOpen newFile "w") w) as [w1|]; [|intros []].
  destruct (perform lib (mustOpen unmappedFile "w") w1) as [w2|];
    [|intros [H|[]]; discriminate H].
  destruct (exists_ lib oldFile w2).
  - pose proof (run_asksNothing lib (k true) w2 oldFile false Hfound) as Hno.
    destruct (run lib (k true) w2) as [log r]. cbn in *.
    intros [H|[H|[H|H]]]; try discriminate H. contradiction.
  - rewrite Hmissing. reflexivity.
Qed.

Lemma C10_witness :
  In (Asked "old.bed" false)
     (fst (run SimpleFs.lib
             (liftOver Opt.none (Glob.mk 0 0 false false false) "old.bed" "map.chain"
                LIFTOVER_MINMATCH LIFTOVER_MINBLOCKS 0 0 0 0 false false None
                "new.bed" "unmapped.bed" false)
             (SimpleFs.mk ["map.chain"] [])))
  /\ run SimpleFs.lib
       (liftOver Opt.none (Glob.mk 0 0 false false false) "old.bed" "map.chain"
          LIFTOVER_MINMATCH LIFTOVER_MINBLOCKS 0 0 0 0 false false None
          "new.bed" "unmapped.bed" false)
       (SimpleFs.mk ["map.chain"] [])
     = ([Did (mustOpen "new.bed" "w"); Did (mustOpen "unmapped.bed" "w");
         Asked "old.bed" false],
        Aborted "Can't find file: %s\n" [ArgStr "old.bed"]).
Proof.
  assert (H : In (Asked "old.bed" false)
                (fst (run SimpleFs.lib
                        (liftOver Opt.none (Glob.mk 0 0 false false false) "old.bed"
                           "map.chain" LIFTOVER_MINMATCH LIFTOVER_MINBLOCKS 0 0 0 0
                           false false None "new.bed" "unmapped.bed" false)
                        (SimpleFs.mk ["map.chain"] []))))
    by (right; right; left; reflexivity).
  split; [exact H|].
  exact (proj2 (C10_missing_input_aborts_after_opens Opt.none
                  (Glob.mk 0 0 false false false) "old.bed" "map.chain"
                  LIFTOVER_MINMATCH LIFTOVER_MINBLOCKS 0 0 0 0 false false None
                  "new.bed" "unmapped.bed" false)
               SimpleFs.world SimpleFs.lib (SimpleFs.mk ["map.chain"] []) H).
Defined.

(** * Properties of the engine *)

Module EngineFacts.
Import Engine.
#[local] Open Scope N_scope.

(** **** The index *)

Lemma loadChainMap_single (c : Chain.t) :
  wellFormed c = true ->
  loadChainMap [c] = <[Chain.targetName c := [c]]> ∅.
Proof.
  intros Hwf. unfold loadChainMap, build. cbn [List.filter]. rewrite Hwf.
  cbn [fold_left]. unfold addChain. now rewrite lookup_empty.
Qed.

Lemma candidates_nil_of_no_overlap (m : ChainMap) (iv : LiftInterval.t) :
  (m !! LiftInterval.seqName iv = None
   \/ exists index, m !! LiftInterval.seqName iv = Some index
        /\ forall c, In c index ->
             chainOverlaps (LiftInterval.start iv) (LiftInterval.end_ iv) c = false) ->
  candidates m iv = [].
Proof.
  unfold candidates. intros [Hnone | (index & Hsome & Hno)].
  - now rewrite Hnone.
  - rewrite Hsome. clear Hsome. unfold query. induction index as [|c index IH]; [reflexivity|].
    cbn [List.filter]. rewrite (Hno c (or_introl eq_refl)).
    apply IH. intros c' Hin. apply Hno. now right.
Qed.

(** **** The transform on an empty interval *)

Lemma walk_empty_interval (c : Chain.t) (p : N) (bs : list ChainBlock.t) :
  walk c p p bs = [].
Proof.
  induction bs as [|b bs IH]; [reflexivity|]. cbn [walk].
  destruct (p <=? ChainBlock.targetStart b); [reflexivity|].
  replace (N.max p (ChainBlock.targetStart b)
           <? N.min p (ChainBlock.targetStart b + ChainBlock.size b)) with false
    by (symmetry; apply N.ltb_ge; lia).
  exact IH.
Qed.

Lemma touches_empty_interval (p : N) (bs : list ChainBlock.t) :
  List.filter (touches p p) bs = [].
Proof.
  induction bs as [|b bs IH]; [reflexivity|]. cbn [List.filter]. unfold touches at 1.
  replace (N.max p (ChainBlock.targetStart b)
           <? N.min p (ChainBlock.targetStart b + ChainBlock.size b)) with false
    by (symmetry; apply N.ltb_ge; lia).
  exact IH.
Qed.

Lemma transform_empty_interval (c : Chain.t) (iv : LiftInterval.t) :
  LiftInterval.start iv = LiftInterval.end_ iv ->
  transform c iv = Transformed.mk c [] 0 0 0 0.
Proof.
  intros H. unfold transform. rewrite <- H, walk_empty_interval, touches_empty_interval.
  cbn. now rewrite N.sub_diag.
Qed.

Lemma accepted_empty (cfg : Config.t) (c : Chain.t) :
  accepted cfg (Transformed.mk c [] 0 0 0 0) = true.
Proof. reflexivity. Qed.

Lemma acceptedOf_empty_interval (cfg : Config.t) (iv : LiftInterval.t)
    (cands : list Chain.t) :
  LiftInterval.start iv = LiftInterval.end_ iv ->
  acceptedOf cfg iv cands = map (fun c => Transformed.mk c [] 0 0 0 0) cands.
Proof.
  intros H. unfold acceptedOf. induction cands as [|c cands IH]; [reflexivity|].
  cbn [map List.filter]. rewrite (transform_empty_interval c iv H), accepted_empty.
  now rewrite IH.
Qed.

(** **** The single-region choice *)

Lemma pickBest_in (t : Transformed.t) (rest : list Transformed.t) :
  In (pickBest t rest) (t :: rest).
Proof.
  unfold pickBest. revert t. induction rest as [|x rest IH]; intros t.
  - now left.
  - cbn [fold_left]. destruct (better x t).
    + right. apply IH.
    + destruct (IH t) as [H | H]; [now left | right; now right].
Qed.

(** **** Counting the regions of multiple mode *)








(** **** The claims about the engine *)

(** C4: the interval chr1:[110,140) lifted through a forward-strand chain
    on chr1 whose only block is (targetStart=100, queryStart=500,
    size=50), in single-region mode with thresholds not above 1, gives
    one Mapped region with query range [510,540) and matchedBases = 30,
    and the match ratio of the transform is 1. *)
Theorem C4_single_block_scenario
    (id : N) (score : Z) (tSize qSize : N) (qName : string) (cfg : Config.t) :
  Config.multiple cfg = false ->
  (Config.minMatch cfg <= 1)%Q ->
  (Config.minBlocks cfg <= 1)%Q ->
  let c := EngineEx.oneBlock id score tSize qSize qName in
  let iv := LiftInterval.mk "chr1" 110 140 in
  liftInterval (loadChainMap [c]) iv cfg
  = Mapped (MappedRegion.mk qName 510 540 Forward id 30 1 None)
  /\ Transformed.matchedBases (transform c iv) = 30
  /\ (matchRatio (transform c iv) == 1)%Q.
Proof.
  intros Hmode Hmm Hmb c iv.
  assert (Hacc : accepted cfg (transform c iv) = true).
  { unfold accepted, matchPasses, blocksPass. apply andb_true_iff. split.
    - change (Qle_bool (Config.minMatch cfg) (30 # 30) = true).
      apply Qle_bool_iff. apply Qle_trans with 1%Q; [exact Hmm | discriminate].
    - change (Qle_bool (Config.minBlocks cfg) (1 # 1) = true).
      now apply Qle_bool_iff. }
  split; [|split; reflexivity].
  rewrite (loadChainMap_single c eq_refl).
  unfold liftInterval, candidates.
  change (LiftInterval.seqName iv) with (Chain.targetName c).
  rewrite lookup_insert_eq.
  change (query [c] (LiftInterval.start iv) (LiftInterval.end_ iv)) with [c].
  rewrite Hmode. unfold acceptedOf. cbn [map List.filter]. rewrite Hacc.
  reflexivity.
Qed.

Lemma C4_witness :
  Config.multiple Config.default = false
  /\ liftInterval (loadChainMap [EngineEx.chainA]) (LiftInterval.mk "chr1" 110 140)
       Config.default
     = Mapped (MappedRegion.mk "chr1" 510 540 Forward 7 30 1 None).
Proof.
  split; [reflexivity|].
  apply (C4_single_block_scenario 7 1000%Z 1000 2000 "chr1" Config.default);
    [reflexivity | discriminate | discriminate].
Defined.

(** C5: for a zero-length interval that overlaps at least one chain, the
    transform through every candidate chain has output of total length 0
    and matchedBases = 0, both ratio checks pass whatever the thresholds
    (both denominators are 0), so step 2 rejects no candidate; in
    single-region mode the lift returns a Mapped region of length 0 with
    matchedBases = 0. *)
Theorem C5_zero_length_interval (m : ChainMap) (iv : LiftInterval.t) (cfg : Config.t) :
  LiftInterval.start iv = LiftInterval.end_ iv ->
  candidates m iv <> [] ->
  (forall c, In c (candidates m iv) ->
     totalLength (Transformed.fragments (transform c iv)) = 0
     /\ Transformed.matchedBases (transform c iv) = 0
     /\ Transformed.totalBases (transform c iv) = 0
     /\ Transformed.totalBlocksTouched (transform c iv) = 0
     /\ matchPasses cfg (transform c iv) = true
     /\ blocksPass cfg (transform c iv) = true)
  /\ acceptedOf cfg iv (candidates m iv) = map (fun c => transform c iv) (candidates m iv)
  /\ (Config.multiple cfg = false ->
      exists r, liftInterval m iv cfg = Mapped r
                /\ MappedRegion.start r = MappedRegion.end_ r
                /\ MappedRegion.matchedBases r = 0).
Proof.
  intros Hzero Hcands. split; [|split].
  - intros c _. rewrite (transform_empty_interval c iv Hzero). now repeat split.
  - rewrite (acceptedOf_empty_interval cfg iv _ Hzero).
    apply map_ext. intros c. now rewrite (transform_empty_interval c iv Hzero).
  - intros Hmode. unfold liftInterval. rewrite Hmode.
    destruct (candidates m iv) as [|c cands]; [contradiction|].
    rewrite (acceptedOf_empty_interval cfg iv _ Hzero).
    cbn [map]. eexists. split; [reflexivity|].
    pose proof (pickBest_in (Transformed.mk c [] 0 0 0 0)
                  (map (fun c0 => Transformed.mk c0 [] 0 0 0 0) cands)) as Hin.
    assert (Hshape : exists c0, pickBest (Transformed.mk c [] 0 0 0 0)
                       (map (fun c0 => Transformed.mk c0 [] 0 0 0 0) cands)
                     = Transformed.mk c0 [] 0 0 0 0).
    { destruct Hin as [<- | Hin]; [now exists c|].
      apply in_map_iff in Hin as (c0 & <- & _). now exists c0. }
    destruct Hshape as [c0 ->]. split; reflexivity.
Qed.

Lemma C5_witness :
  candidates (loadChainMap [EngineEx.chainA]) (LiftInterval.mk "chr1" 120 120) <> []
  /\ acceptedOf Config.default (LiftInterval.mk "chr1" 120 120)
       (candidates (loadChainMap [EngineEx.chainA]) (LiftInterval.mk "chr1" 120 120))
     = map (fun c => transform c (LiftInterval.mk "chr1" 120 120))
         (candidates (loadChainMap [EngineEx.chainA]) (LiftInterval.mk "chr1" 120 120)).
Proof.
  assert (H : candidates (loadChainMap [EngineEx.chainA]) (LiftInterval.mk "chr1" 120 120)
              <> []) by (vm_compute; discriminate).
  split; [exact H|].
  apply (C5_zero_length_interval (loadChainMap [EngineEx.chainA])
           (LiftInterval.mk "chr1" 120 120) Config.default eq_refl H).
Defined.

(** C6: when the interval's sequence name is not in the chain map, or no
    chain filed under it overlaps the interval's range, [liftInterval]
    returns Unmapped, in either mode and for every configuration; being
    a total function into LiftResult it has no error to raise. *)
Theorem C6_no_overlapping_chain_unmapped
    (m : ChainMap) (iv : LiftInterval.t) (cfg : Config.t) :
  (m !! LiftInterval.seqName iv = None
   \/ exists index, m !! LiftInterval.seqName iv = Some index
        /\ forall c, In c index ->
             chainOverlaps (LiftInterval.start iv) (LiftInterval.end_ iv) c = false) ->
  liftInterval m iv cfg = Unmapped.
Proof.
  intros H. unfold liftInterval. now rewrite (candidates_nil_of_no_overlap m iv H).
Qed.

Lemma C6_witness :
  loadChainMap [EngineEx.chainA] !! "chr2" = None
  /\ liftInterval (loadChainMap [EngineEx.chainA]) (LiftInterval.mk "chr2" 110 140)
       Config.default = Unmapped.
Proof.
  assert (H : loadChainMap [EngineEx.chainA] !! "chr2" = None)
    by (vm_compute; reflexivity).
  split; [exact H|].
  apply (C6_no_overlapping_chain_unmapped (loadChainMap [EngineEx.chainA])
           (LiftInterval.mk "chr2" 110 140) Config.default).
  left. exact H.
Defined.






End EngineFacts.

(** * Further properties of the dispatcher *)

(** ** Startup checks of [main] *)

Lemma bothSynonyms_aborts (o : Opt.t) (argv : list string) :
  bothSynonyms o = true -> abortsAtStartup (main o argv) = true.
Proof.
  intros H. rewrite abortsAtStartup_main, H. now rewrite orb_true_r.
Qed.

(** X1: giving both -minSizeT and -minChainT never reaches the library:
    [main] aborts at startup whatever else is on the command line, and with
    -multiple the abort is the "Can't set both" one. *)
Theorem X1_synonym_conflict (o : Opt.t) (argv : list string) :
  optionExists o "minSizeT" = true ->
  optionExists o "minChainT" = true ->
  abortsAtStartup (main o argv) = true
  /\ (optionExists o "multiple" = true -> main o argv = errAbort synonymMsg []).
Proof.
  intros Hs Hc. split.
  - apply bothSynonyms_aborts. unfold bothSynonyms. now rewrite Hs, Hc.
  - intros Hm. rewrite main_cases. unfold filtersWithoutMultiple, bothSynonyms.
    now rewrite Hm, Hs, Hc.
Qed.

Lemma X1_witness :
  optionExists Cmd2.bothSizes "minSizeT" = true
  /\ optionExists Cmd2.bothSizes "minChainT" = true
  /\ main Cmd2.bothSizes Cmd.argv = errAbort synonymMsg [].
Proof.
  split; [reflexivity|]. split; [reflexivity|].
  apply (X1_synonym_conflict Cmd2.bothSizes Cmd.argv); reflexivity.
Defined.

(** X2: with -errorHelp the program never processes anything: it always
    aborts at startup, and when no option check fires before (filters
    without -multiple, both synonyms, bedPlus out of range, hasBin or tab
    without bedPlus) the abort prints the help text, whatever the number of
    file arguments. *)
Theorem X2_errorHelp_wins_over_arguments (o : Opt.t) (argv : list string) :
  optionExists o "errorHelp" = true ->
  abortsAtStartup (main o argv) = true
  /\ (filtersWithoutMultiple o = false ->
      bothSynonyms o = false ->
      (optionExists o "bedPlus" = true -> 3 <= optionInt o "bedPlus" 0 <= 15) ->
      (optionExists o "bedPlus" = false ->
       optionExists o "hasBin" = false /\ optionExists o "tab" = false
       /\ optionExists o "tabSep" = false) ->
      main o argv = errAbort "%s" [ArgErrHelp]).
Proof.
  intros He. split.
  - rewrite abortsAtStartup_main, He. cbn. now rewrite orb_true_r.
  - intros Hf Hs Hin Hout. rewrite main_cases, Hf, Hs, He.
    destruct (optionExists o "bedPlus") eqn:Hbp.
    + specialize (Hin eq_refl).
      replace ((optionInt o "bedPlus" 0 <? 3) || (optionInt o "bedPlus" 0 >? 15))
        with false by lia.
      replace (optionInt o "bedPlus" 0 =? 0) with false by lia.
      cbn [andb]. now rewrite andb_false_r.
    + destruct (Hout eq_refl) as (-> & -> & ->). reflexivity.
Qed.

Lemma X2_witness :
  optionExists Cmd2.errorHelpOnly "errorHelp" = true
  /\ main Cmd2.errorHelpOnly Cmd2.shortArgv = errAbort "%s" [ArgErrHelp].
Proof.
  split; [reflexivity|].
  apply (X2_errorHelp_wins_over_arguments Cmd2.errorHelpOnly Cmd2.shortArgv);
    try reflexivity; try discriminate. now intros _.
Defined.

(** X3: [main] calls [liftOver] only with exactly four file arguments: with
    any other number left after the options ([argc] different from 5) it
    aborts at startup, and if the program does get past its startup checks
    then [argv] has length 5 and the program is the [liftOver] call on
    argv[1..4]. *)
Theorem X3_four_file_arguments (o : Opt.t) (argv : list string) :
  (length argv <> 5%nat -> abortsAtStartup (main o argv) = true)
  /\ (abortsAtStartup (main o argv) = false ->
      length argv = 5%nat /\ main o argv = liftOverCall o argv).
Proof.
  assert (Hlen : length argv <> 5%nat -> abortsAtStartup (main o argv) = true).
  { intros H. rewrite abortsAtStartup_main.
    replace (Z.of_nat (length argv) =? 5) with false by lia.
    cbn. now rewrite orb_true_r. }
  split; [exact Hlen|]. intros H. split.
  - destruct (Nat.eq_dec (length argv) 5%nat) as [E|E]; [exact E|].
    rewrite (Hlen E) in H. discriminate H.
  - now apply main_after_startup.
Qed.

Lemma X3_witness :
  length Cmd2.shortArgv <> 5%nat
  /\ abortsAtStartup (main Opt.none Cmd2.shortArgv) = true.
Proof.
  split; [discriminate|].
  apply (X3_four_file_arguments Opt.none Cmd2.shortArgv). discriminate.
Defined.

(** X4: -tab and -tabSep are interchangeable: the program depends only on
    whether at least one of the two is given. *)
Theorem X4_tab_tabSep_synonyms (o : Opt.t) (argv : list string)
    (tab tabSep tab' tabSep' : bool) :
  tab || tabSep = tab' || tabSep' ->
  main (withTab tab tabSep o) argv = main (withTab tab' tabSep' o) argv.
Proof.
  intros H.
  destruct tab, tabSep, tab', tabSep'; try discriminate H; vm_compute; reflexivity.
Qed.

Lemma X4_witness :
  main (withTab true false Cmd2.bedPlus6) Cmd.argv
  = main (withTab false true Cmd2.bedPlus6) Cmd.argv.
Proof.
  apply (X4_tab_tabSep_synonyms Cmd2.bedPlus6 Cmd.argv true false false true).
  reflexivity.
Defined.

(** ** The dispatch of [liftOver] *)

Section Dispatch.
Variables (o : Opt.t) (g : Glob.t) (oldFile mapFile : string) (minMatch minBlocks : Q).
Variables (minSizeT minSizeQ minChainT minChainQ : Z) (multiple noSerial : bool).
Variables (chainTable : option string) (newFile unmappedFile : string).
Variable (preserveInput : bool).

(** X5: whatever format options are combined, [liftOver] calls at most one
    driver, and it is the driver of the first format present in the order
    gff, genePred, sample, pslT, ends, bedPlus, positions (bed when none is
    given): -gff beats every other format option, and so on down the list. *)
Theorem X5_one_driver_by_priority :
  let p := liftOver o g oldFile mapFile minMatch minBlocks minSizeT minSizeQ
             minChainT minChainQ multiple noSerial chainTable newFile
             unmappedFile preserveInput in
  (length (driverCalls p) <= 1)%nat
  /\ forall d, In d (driverCalls p) -> formatOf d = selectedFormat o.
Proof.
  intros p. subst p. dispatch_cases o multiple chainTable;
    (split; [lia | intros d Hd; repeat destruct Hd as [<-|Hd]; try reflexivity;
                   contradiction]).
Qed.

(** X6: on the path where the input file is found and no library call
    fails, [liftOver] reaches no driver exactly in the combinations it does
    not support: -chainTable with gff, genePred, sample or pslT, and
    -multiple with gff, sample or pslT (genePred accepts -multiple).  The
    refusal comes late: on that path both output files have been opened for
    writing and the chain map has been read before the program aborts. *)
Theorem X6_unsupported_combinations :
  let p := liftOver o g oldFile mapFile minMatch minBlocks minSizeT minSizeQ
             minChainT minChainQ multiple noSerial chainTable newFile
             unmappedFile preserveInput in
  (driverCalls p = []
   <-> (isSet chainTable = true /\ In (selectedFormat o) [Gff; GenePred; Sample; PslT])
       \/ (multiple = true /\ In (selectedFormat o) [Gff; Sample; PslT]))
  /\ (driverCalls p = [] ->
      firstn 2 (callsIfFound p) = [mustOpen newFile "w"; mustOpen unmappedFile "w"]
      /\ In (readLiftOverMap mapFile) (callsIfFound p)
      /\ exists fmt, leafIfFound p = Aborted fmt []).
Proof.
  intros p. subst p. dispatch_cases o multiple chainTable;
    (split; [split; [intros H; try discriminate H; intuition | intros H; try reflexivity;
                       exfalso; destruct H as [[H1 H2]|[H1 H2]]; solve_in]
            | intros H; try discriminate H; intuition eauto]).
Qed.

(** X7: whether [liftOver] closes the two output files depends on the
    -positions option alone, not on the driver that ran.  With -positions it
    never calls carefulClose (so after -gff -positions, where the gff driver
    runs, the files stay open); without it, a program that comes back from
    its driver ends with carefulClose on newFile and then on unmappedFile,
    and closes nothing before. *)
Theorem X7_close_unless_positions :
  let p := liftOver o g oldFile mapFile minMatch minBlocks minSizeT minSizeQ
             minChainT minChainQ multiple noSerial chainTable newFile
             unmappedFile preserveInput in
  (optionExists o "positions" = true ->
   forall f, ~ In (carefulClose f) (callsIfFound p))
  /\ (optionExists o "positions" = false ->
      leafIfFound p = Returned tt ->
      exists front d,
        callsIfFound p
        = (front ++ [callDriver d; carefulClose newFile; carefulClose unmappedFile])%list
        /\ forall f, ~ In (carefulClose f) front).
Proof.
  intros p. subst p.
  unfold liftOver, abortIf.
  destruct (optionExists o "positions"); (split; [intros Hp; try discriminate Hp|
                                                   intros Hp; try discriminate Hp]).
  - intros f.
    destruct (optionExists o "gff"), (optionExists o "genePred"),
      (optionExists o "sample"), (optionExists o "pslT"), (optionExists o "ends"),
      (optionExists o "bedPlus"), multiple, chainTable; cbn;
      intros H; solve_in.
  - destruct (optionExists o "gff"), (optionExists o "genePred"),
      (optionExists o "sample"), (optionExists o "pslT"), (optionExists o "ends"),
      (optionExists o "bedPlus"), multiple, chainTable; cbn;
      intros H; try discriminate H;
      match goal with
      | |- exists front d, ?a :: ?b :: ?c :: ?d0 :: ?e :: callDriver ?x :: _ = _ /\ _ =>
          exists [a; b; c; d0; e], x; split; [reflexivity | intros f Hf; solve_in]
      | |- exists front d, ?a :: ?b :: ?c :: ?d0 :: ?e :: ?e2 :: callDriver ?x :: _ = _ /\ _ =>
          exists [a; b; c; d0; e; e2], x; split; [reflexivity | intros f Hf; solve_in]
      end.
Qed.

(** X8: the four size filters and -noSerial reach a driver only for the
    ends, bedPlus, positions and bed formats.  When the format is gff,
    genePred, sample or pslT the whole program is the same whatever their
    values: with -genePred -multiple, for one, -minChainT is silently
    ignored. *)
Theorem X8_size_filters_ignored (st sq ct cq : Z) (ns : bool) :
  In (selectedFormat o) [Gff; GenePred; Sample; PslT] ->
  liftOver o g oldFile mapFile minMatch minBlocks minSizeT minSizeQ minChainT
    minChainQ multiple noSerial chainTable newFile unmappedFile preserveInput
  = liftOver o g oldFile mapFile minMatch minBlocks st sq ct cq multiple ns
      chainTable newFile unmappedFile preserveInput.
Proof.
  unfold selectedFormat, liftOver.
  destruct (optionExists o "gff"); [reflexivity|].
  destruct (optionExists o "genePred"); [reflexivity|].
  destruct (optionExists o "sample"); [reflexivity|].
  destruct (optionExists o "pslT"); [reflexivity|].
  destruct (optionExists o "ends"), (optionExists o "bedPlus"),
    (optionExists o "positions"); intros H; solve_in.
Qed.

(** X9: -preserveInput has no effect on psl and positions input: when the
    format is pslT or positions the program is the same with and without
    it. *)
Theorem X9_preserveInput_ignored (pi : bool) :
  In (selectedFormat o) [PslT; Positions] ->
  liftOver o g oldFile mapFile minMatch minBlocks minSizeT minSizeQ minChainT
    minChainQ multiple noSerial chainTable newFile unmappedFile preserveInput
  = liftOver o g oldFile mapFile minMatch minBlocks minSizeT minSizeQ minChainT
      minChainQ multiple noSerial chainTable newFile unmappedFile pi.
Proof.
  unfold selectedFormat, liftOver.
  destruct (optionExists o "gff"); [intros H; solve_in|].
  destruct (optionExists o "genePred"); [intros H; solve_in|].
  destruct (optionExists o "sample"); [intros H; solve_in|].
  destruct (optionExists o "pslT"); [reflexivity|].
  destruct (optionExists o "ends"); [intros H; solve_in|].
  destruct (optionExists o "bedPlus"); [intros H; solve_in|].
  destruct (optionExists o "positions"); [reflexivity|intros H; solve_in].
Qed.
End Dispatch.

Lemma X5_witness :
  In (liftOverGff "old.bed" LIFTOVER_MINMATCH LIFTOVER_MINBLOCKS false)
     (driverCalls (liftOver Cmd2.gffPositions (Glob.mk 0 0 false false false) "old.bed"
                     "map.chain" LIFTOVER_MINMATCH LIFTOVER_MINBLOCKS 0 0 0 0 false false
                     None "new.bed" "unmapped.bed" false))
  /\ formatOf (liftOverGff "old.bed" LIFTOVER_MINMATCH LIFTOVER_MINBLOCKS false)
     = selectedFormat Cmd2.gffPositions.
Proof.
  assert (H : In (liftOverGff "old.bed" LIFTOVER_MINMATCH LIFTOVER_MINBLOCKS false)
                (driverCalls
                   (liftOver Cmd2.gffPositions (Glob.mk 0 0 false false false) "old.bed"
                      "map.chain" LIFTOVER_MINMATCH LIFTOVER_MINBLOCKS 0 0 0 0 false
                      false None "new.bed" "unmapped.bed" false)))
    by (left; reflexivity).
  split; [exact H|].
  exact (proj2 (X5_one_driver_by_priority Cmd2.gffPositions
                  (Glob.mk 0 0 false false false) "old.bed" "map.chain"
                  LIFTOVER_MINMATCH LIFTOVER_MINBLOCKS 0 0 0 0 false false None
                  "new.bed" "unmapped.bed" false) _ H).
Defined.

Lemma X6_witness :
  driverCalls (liftOver Cmd2.gffMultiple (Glob.mk 0 0 false false false) "old.bed"
                 "map.chain" LIFTOVER_MINMATCH LIFTOVER_MINBLOCKS 0 0 0 0 true false
                 None "new.bed" "unmapped.bed" false) = []
  /\ exists fmt,
       leafIfFound (liftOver Cmd2.gffMultiple (Glob.mk 0 0 false false false) "old.bed"
                      "map.chain" LIFTOVER_MINMATCH LIFTOVER_MINBLOCKS 0 0 0 0 true
                      false None "new.bed" "unmapped.bed" false)
       = Aborted fmt [].
Proof.
  split; [reflexivity|].
  apply (X6_unsupported_combinations Cmd2.gffMultiple (Glob.mk 0 0 false false false)
           "old.bed" "map.chain" LIFTOVER_MINMATCH LIFTOVER_MINBLOCKS 0 0 0 0 true
           false None "new.bed" "unmapped.bed" false).
  reflexivity.
Defined.

Lemma X7_witness :
  optionExists Cmd2.gffPositions "positions" = true
  /\ ~ In (carefulClose "new.bed")
         (callsIfFound
            (liftOver Cmd2.gffPositions (Glob.mk 0 0 false false false) "old.bed"
               "map.chain" LIFTOVER_MINMATCH LIFTOVER_MINBLOCKS 0 0 0 0 false false
               None "new.bed" "unmapped.bed" false)).
Proof.
  split; [reflexivity|].
  apply (X7_close_unless_positions Cmd2.gffPositions (Glob.mk 0 0 false false false)
           "old.bed" "map.chain" LIFTOVER_MINMATCH LIFTOVER_MINBLOCKS 0 0 0 0 false
           false None "new.bed" "unmapped.bed" false).
  reflexivity.
Defined.

Lemma X8_witness :
  In (selectedFormat Cmd2.genePredMultiple) [Gff; GenePred; Sample; PslT]
  /\ liftOver Cmd2.genePredMultiple (Glob.mk 0 0 false false false) "old.bed"
       "map.chain" LIFTOVER_MINMATCH LIFTOVER_MINBLOCKS 0 0 100 0 true false None
       "new.bed" "unmapped.bed" false
     = liftOver Cmd2.genePredMultiple (Glob.mk 0 0 false false false) "old.bed"
         "map.chain" LIFTOVER_MINMATCH LIFTOVER_MINBLOCKS 0 0 0 0 true false None
         "new.bed" "unmapped.bed" false.
Proof.
  assert (H : In (selectedFormat Cmd2.genePredMultiple) [Gff; GenePred; Sample; PslT])
    by (right; left; reflexivity).
  split; [exact H|].
  exact (X8_size_filters_ignored Cmd2.genePredMultiple (Glob.mk 0 0 false false false)
           "old.bed" "map.chain" LIFTOVER_MINMATCH LIFTOVER_MINBLOCKS 0 0 100 0 true
           false None "new.bed" "unmapped.bed" false 0 0 0 0 false H).
Defined.

Lemma X9_witness :
  In (selectedFormat Cmd2.pslPreserve) [PslT; Positions]
  /\ liftOver Cmd2.pslPreserve (Glob.mk 0 0 false false false) "old.bed"
       "map.chain" LIFTOVER_MINMATCH LIFTOVER_MINBLOCKS 0 0 0 0 false false None
       "new.bed" "unmapped.bed" true
     = liftOver Cmd2.pslPreserve (Glob.mk 0 0 false false false) "old.bed"
         "map.chain" LIFTOVER_MINMATCH LIFTOVER_MINBLOCKS 0 0 0 0 false false None
         "new.bed" "unmapped.bed" false.
Proof.
  assert (H : In (selectedFormat Cmd2.pslPreserve) [PslT; Positions])
    by (left; reflexivity).
  split; [exact H|].
  exact (X9_preserveInput_ignored Cmd2.pslPreserve (Glob.mk 0 0 false false false)
           "old.bed" "map.chain" LIFTOVER_MINMATCH LIFTOVER_MINBLOCKS 0 0 0 0 false
           false None "new.bed" "unmapped.bed" true false H).
Defined.

(** ** Runs under an arbitrary library *)

Lemma didsOf_map_Did (l : list action) : didsOf (map Did l) = l.
Proof.
  unfold didsOf. induction l as [|a l IH]; [reflexivity|]. cbn. now rewrite IH.
Qed.

(** A program that asks nothing and is not stopped by the library performs
    exactly its calls and ends in its leaf. *)
Lemma run_straight {W A : Type} (lib : library W) (p : prog A) (w : W) :
  asksNothing p ->
  (forall a, snd (run lib p w) <> LibraryAborted a) ->
  run lib p w = (map Did (callsIfFound p), leafIfFound p).
Proof.
  revert w. induction p as [a|fmt args|a k IH|n k IH]; cbn; intros w Hp Hok;
    try reflexivity; try contradiction.
  destruct (perform lib a w) as [w'|]; [|now elim (Hok a)].
  specialize (IH w' Hp). destruct (run lib k w') as [log r]. cbn in *.
  specialize (IH Hok). injection IH as -> ->. reflexivity.
Qed.

Lemma not_library_abort_of_returned {A : Type} (r : outcome A) (z : A) :
  r = Returned z -> forall a, r <> LibraryAborted a.
Proof. intros -> a H. discriminate H. Qed.

(** The shape of [liftOver]: two opens, the existence test, and, when the
    file is found, the chain map read between two messages, followed by a
    dispatch that asks nothing more. *)
Lemma liftOver_found_shape (o : Opt.t) (g : Glob.t) (oldFile mapFile : string)
    (minMatch minBlocks : Q) (minSizeT minSizeQ minChainT minChainQ : Z)
    (multiple noSerial : bool) (chainTable : option string)
    (newFile unmappedFile : string) (preserveInput : bool) :
  exists (k : bool -> prog unit) (tail : prog unit),
    liftOver o g oldFile mapFile minMatch minBlocks minSizeT minSizeQ minChainT
      minChainQ multiple noSerial chainTable newFile unmappedFile preserveInput
    = Do (mustOpen newFile "w") (Do (mustOpen unmappedFile "w") (fileExists oldFile k))
    /\ k false = errAbort "Can't find file: %s\n" [ArgStr oldFile]
    /\ k true = Do (verbose 1 "Reading liftover chains\n")
                  (Do (readLiftOverMap mapFile)
                     (Do (verbose 1 "Mapping coordinates\n") tail))
    /\ asksNothing tail.
Proof.
  destruct (liftOver_shape o g oldFile mapFile minMatch minBlocks minSizeT minSizeQ
              minChainT minChainQ multiple noSerial chainTable newFile unmappedFile
              preserveInput) as (k & Hp & Hmissing & Hfound).
  exists k. eexists. split; [exact Hp|]. split; [exact Hmissing|].
  unfold liftOver in Hp. cbn [bind] in Hp.
  injection Hp as Hk. subst k. split; [reflexivity|]. exact Hfound.
Qed.

(** X10: in every run of [liftOver], under any library, a driver is called
    only after both output files were opened for writing, oldFile was found
    to exist and the chain map was read from mapFile, in this order: the log
    of a run that reaches a driver starts with these steps. *)
Theorem X10_driver_only_after_chain_map
    {W : Type} (lib : library W) (w : W) (o : Opt.t) (g : Glob.t)
    (oldFile mapFile : string) (minMatch minBlocks : Q)
    (minSizeT minSizeQ minChainT minChainQ : Z) (multiple noSerial : bool)
    (chainTable : option string) (newFile unmappedFile : string)
    (preserveInput : bool) (d : driverCall) :
  let p := liftOver o g oldFile mapFile minMatch minBlocks minSizeT minSizeQ
             minChainT minChainQ multiple noSerial chainTable newFile unmappedFile
             preserveInput in
  In (Did (callDriver d)) (fst (run lib p w)) ->
  exists rest,
    fst (run lib p w)
    = ([Did (mustOpen newFile "w"); Did (mustOpen unmappedFile "w");
        Asked oldFile true; Did (verbose 1 "Reading liftover chains\n");
        Did (readLiftOverMap mapFile); Did (verbose 1 "Mapping coordinates\n")]
       ++ rest)%list.
Proof.
  intros p.
  destruct (liftOver_found_shape o g oldFile mapFile minMatch minBlocks minSizeT
              minSizeQ minChainT minChainQ multiple noSerial chainTable newFile
              unmappedFile preserveInput) as (k & tail & Hp & Hmissing & Hfound & _).
  fold p in Hp. rewrite Hp. cbn [run].
  destruct (perform lib (mustOpen newFile "w") w) as [w1|]; [|no_driver_in_short_log].
  destruct (perform lib (mustOpen unmappedFile "w") w1) as [w2|];
    [|no_driver_in_short_log].
  destruct (exists_ lib oldFile w2); [|rewrite Hmissing; no_driver_in_short_log].
  rewrite Hfound. cbn [run].
  destruct (perform lib (verbose 1 "Reading liftover chains\n") w2) as [w3|];
    [|no_driver_in_short_log].
  destruct (perform lib (readLiftOverMap mapFile) w3) as [w4|];
    [|no_driver_in_short_log].
  destruct (perform lib (verbose 1 "Mapping coordinates\n") w4) as [w5|];
    [|no_driver_in_short_log].
  destruct (run lib tail w5) as [log r]. cbn. intros _. now exists log.
Qed.

Lemma X10_witness :
  exists rest,
    fst (run SimpleFs.lib
           (liftOver Opt.none (Glob.mk 0 0 false false false) "old.bed" "map.chain"
              LIFTOVER_MINMATCH LIFTOVER_MINBLOCKS 0 0 0 0 false false None
              "new.bed" "unmapped.bed" false) Cmd2.ready)
    = ([Did (mustOpen "new.bed" "w"); Did (mustOpen "unmapped.bed" "w");
        Asked "old.bed" true; Did (verbose 1 "Reading liftover chains\n");
        Did (readLiftOverMap "map.chain"); Did (verbose 1 "Mapping coordinates\n")]
       ++ rest)%list.
Proof.
  apply (X10_driver_only_after_chain_map SimpleFs.lib Cmd2.ready Opt.none
           (Glob.mk 0 0 false false false) "old.bed" "map.chain" LIFTOVER_MINMATCH
           LIFTOVER_MINBLOCKS 0 0 0 0 false false None "new.bed" "unmapped.bed" false
           (liftOverBed "old.bed" LIFTOVER_MINMATCH LIFTOVER_MINBLOCKS 0 0 0 0 false
              false false None false)).
  vm_compute. do 6 right. left. reflexivity.
Defined.

(** The shape of the call that ends [main], with what its dispatch does
    when it comes back. *)
Lemma liftOverCall_shape (o : Opt.t) (argv : list string) :
  exists (k : bool -> prog Z) (tail : prog Z),
    liftOverCall o argv
    = Do (mustOpen (nth 3 argv "") "w")
        (Do (mustOpen (nth 4 argv "") "w") (fileExists (nth 1 argv "") k))
    /\ (exists fmt args, k false = errAbort fmt args)
    /\ k true = Do (verbose 1 "Reading liftover chains\n")
                  (Do (readLiftOverMap (nth 2 argv ""))
                     (Do (verbose 1 "Mapping coordinates\n") tail))
    /\ asksNothing tail
    /\ forall z, leafIfFound tail = Returned z ->
         z = 0 /\ exists d, driversIn (callsIfFound tail) = [d]
                            /\ formatOf d = selectedFormat o.
Proof.
  unfold liftOverCall, liftOver. cbn [bind].
  eexists. eexists. split; [reflexivity|]. split; [now eexists; eexists|].
  split; [reflexivity|].
  unfold selectedFormat, abortIf, driversIn.
  destruct (optionExists o "gff"), (optionExists o "genePred"),
    (optionExists o "sample"), (optionExists o "pslT"), (optionExists o "ends"),
    (optionExists o "bedPlus"), (optionExists o "positions"),
    (optionExists o "multiple"), (optionVal o "chainTable" None);
    cbn; (split; [exact I|]); intros z Hz; try discriminate Hz;
    injection Hz as <-; (split; [reflexivity|]); eexists; split; reflexivity.
Qed.

(** X11: a run of the whole program that returns, under any library, has
    exit status 0, was given exactly four file arguments, found argv[1] to
    exist, read the chain map from argv[2], and called exactly one driver,
    the one of the selected format.  Every failure ends in an abort, never
    in a return. *)
Theorem X11_normal_exit
    {W : Type} (lib : library W) (w : W) (o : Opt.t) (argv : list string) (z : Z) :
  snd (run lib (main o argv) w) = Returned z ->
  z = 0
  /\ length argv = 5%nat
  /\ In (Asked (nth 1 argv "") true) (fst (run lib (main o argv) w))
  /\ In (Did (readLiftOverMap (nth 2 argv ""))) (fst (run lib (main o argv) w))
  /\ exists d, driversIn (didsOf (fst (run lib (main o argv) w))) = [d]
               /\ formatOf d = selectedFormat o.
Proof.
  intros Hret.
  destruct (abortsAtStartup (main o argv)) eqn:Hstart.
  { destruct (main o argv); try discriminate Hstart. discriminate Hret. }
  assert (Hlen : length argv = 5%nat).
  { rewrite abortsAtStartup_main in Hstart.
    destruct (Z.of_nat (length argv) =? 5) eqn:E; [lia|].
    cbn in Hstart. now rewrite orb_true_r in Hstart. }
  rewrite (main_after_startup o argv Hstart) in *.
  destruct (liftOverCall_shape o argv)
    as (k & tail & Hp & (fmt & args & Hmissing) & Hfound & Hasks & Hleaf).
  rewrite Hp in *. cbn [run] in *.
  destruct (perform lib (mustOpen (nth 3 argv "") "w") w) as [w1|];
    [|discriminate Hret].
  destruct (perform lib (mustOpen (nth 4 argv "") "w") w1) as [w2|];
    [|discriminate Hret].
  destruct (exists_ lib (nth 1 argv "") w2);
    [|rewrite Hmissing in Hret; discriminate Hret].
  rewrite Hfound in *. cbn [run] in *.
  destruct (perform lib (verbose 1 "Reading liftover chains\n") w2) as [w3|];
    [|discriminate Hret].
  destruct (perform lib (readLiftOverMap (nth 2 argv "")) w3) as [w4|];
    [|discriminate Hret].
  destruct (perform lib (verbose 1 "Mapping coordinates\n") w4) as [w5|];
    [|discriminate Hret].
  pose proof (run_straight lib tail w5 Hasks) as Hrun.
  destruct (run lib tail w5) as [log r]. cbn in Hret. subst r.
  specialize (Hrun (not_library_abort_of_returned _ z eq_refl)).
  injection Hrun as Hlog Hz. symmetry in Hz.
  destruct (Hleaf z Hz) as (-> & d & Hd & Hfmt).
  split; [reflexivity|]. split; [exact Hlen|]. cbn [fst].
  split; [right; right; left; reflexivity|].
  split; [do 4 right; left; reflexivity|].
  exists d. split; [|exact Hfmt].
  rewrite Hlog. cbn. rewrite didsOf_map_Did. exact Hd.
Qed.

Lemma X11_witness :
  snd (run SimpleFs.lib (main Opt.none Cmd.argv) Cmd2.ready) = Returned 0
  /\ length Cmd.argv = 5%nat
  /\ exists d, driversIn (didsOf (fst (run SimpleFs.lib (main Opt.none Cmd.argv) Cmd2.ready)))
               = [d]
               /\ formatOf d = selectedFormat Opt.none.
Proof.
  assert (H : snd (run SimpleFs.lib (main Opt.none Cmd.argv) Cmd2.ready) = Returned 0)
    by reflexivity.
  split; [exact H|].
  destruct (X11_normal_exit SimpleFs.lib Cmd2.ready Opt.none Cmd.argv 0 H)
    as (_ & Hlen & _ & _ & Hd).
  split; [exact Hlen | exact Hd].
Defined.

(** ** [main] and [liftOver] together *)

(** X12: the startup checks of [main] do not catch the combinations
    [liftOver] refuses.  An invocation that passes them with -multiple on
    gff, sample or pslT input, or with -chainTable on gff, genePred, sample
    or pslT input, opens both output files for writing and reads the chain
    map (when argv[1] exists and no library call fails) and only then
    aborts, without calling a driver. *)
Theorem X12_late_refusal (o : Opt.t) (argv : list string) :
  abortsAtStartup (main o argv) = false ->
  (optionExists o "multiple" = true /\ In (selectedFormat o) [Gff; Sample; PslT])
  \/ (isSet (optionVal o "chainTable" None) = true
      /\ In (selectedFormat o) [Gff; GenePred; Sample; PslT]) ->
  driverCalls (main o argv) = []
  /\ firstn 2 (callsIfFound (main o argv))
     = [mustOpen (nth 3 argv "") "w"; mustOpen (nth 4 argv "") "w"]
  /\ In (readLiftOverMap (nth 2 argv "")) (callsIfFound (main o argv))
  /\ exists fmt, leafIfFound (main o argv) = Aborted fmt [].
Proof.
  intros Hstart Hcombo. rewrite (main_after_startup o argv Hstart).
  unfold liftOverCall, liftOver, driverCalls, abortIf. revert Hcombo.
  unfold selectedFormat.
  destruct (optionExists o "gff"), (optionExists o "genePred"),
    (optionExists o "sample"), (optionExists o "pslT"), (optionExists o "ends"),
    (optionExists o "bedPlus"), (optionExists o "positions"),
    (optionExists o "multiple"), (optionVal o "chainTable" None);
    cbn; intros [[H1 H2]|[H1 H2]]; solve_in; intuition eauto.
Qed.

Lemma X12_witness :
  abortsAtStartup (main Cmd2.gffMultiple Cmd.argv) = false
  /\ driverCalls (main Cmd2.gffMultiple Cmd.argv) = []
  /\ In (readLiftOverMap "map.chain") (callsIfFound (main Cmd2.gffMultiple Cmd.argv)).
Proof.
  assert (H : abortsAtStartup (main Cmd2.gffMultiple Cmd.argv) = false) by reflexivity.
  split; [exact H|].
  destruct (X12_late_refusal Cmd2.gffMultiple Cmd.argv H) as (Hd & _ & Hr & _).
  - left. split; [reflexivity | left; reflexivity].
  - split; [exact Hd | exact Hr].
Defined.

(** X13: whatever the format, the driver [main] ends up calling receives
    argv[1] as its input file and the -minMatch and -minBlocks values of the
    command line (the defaults when they are absent). *)
Theorem X13_common_driver_arguments (o : Opt.t) (argv : list string) (d : driverCall) :
  In d (driverCalls (main o argv)) ->
  driverOldFile d = nth 1 argv ""
  /\ driverMinMatch d = optionDouble o "minMatch" LIFTOVER_MINMATCH
  /\ driverMinBlocks d = optionDouble o "minBlocks" LIFTOVER_MINBLOCKS.
Proof.
  destruct (abortsAtStartup (main o argv)) eqn:Hstart.
  { destruct (main o argv); try discriminate Hstart. intros []. }
  rewrite (main_after_startup o argv Hstart).
  unfold liftOverCall, liftOver, driverCalls, abortIf.
  destruct (optionExists o "gff"), (optionExists o "genePred"),
    (optionExists o "sample"), (optionExists o "pslT"), (optionExists o "ends"),
    (optionExists o "bedPlus"), (optionExists o "positions"),
    (optionExists o "multiple"), (optionVal o "chainTable" None);
    cbn; intros Hd; repeat destruct Hd as [<-|Hd]; try contradiction;
    repeat split.
Qed.

Lemma X13_witness :
  In (liftOverBed "old.bed" 2 1 0 0 0 0 false false false None false)
     (driverCalls (main Cmd.minMatch2 Cmd.argv))
  /\ driverMinMatch (liftOverBed "old.bed" 2 1 0 0 0 0 false false false None false)
     = optionDouble Cmd.minMatch2 "minMatch" LIFTOVER_MINMATCH.
Proof.
  assert (H : In (liftOverBed "old.bed" 2 1 0 0 0 0 false false false None false)
                (driverCalls (main Cmd.minMatch2 Cmd.argv)))
    by (left; reflexivity).
  split; [exact H|].
  apply (X13_common_driver_arguments Cmd.minMatch2 Cmd.argv _ H).
Defined.

(** X14: [main] never looks at the format options before calling
    [liftOver]: whether it aborts at startup is the same whatever the values
    of -gff, -genePred, -sample, -pslT, -positions, -fudgeThick and
    -preserveInput, so conflicting format options are not rejected. *)
Theorem X14_startup_ignores_formats (o : Opt.t) (argv : list string)
    (gff genePred sample pslT positions fudgeThick preserveInput : bool) :
  abortsAtStartup
    (main (withFormats gff genePred sample pslT positions fudgeThick preserveInput o) argv)
  = abortsAtStartup (main o argv).
Proof. rewrite !abortsAtStartup_main. reflexivity. Qed.
